(** * Response cache, error classification and retry policy

    A shallow embedding of [python/ollama_cache.py] and
    [python/ollama_errors.py], followed by the properties their
    specification states about them.

    Conventions of the embedding.
    - A Python [str] is a [string] whose characters are code points
      U+0000..U+00FF, one character per code point; [len] is the number
      of code points.  Fixed message texts of the source that contain
      characters above U+00FF are carried as the bytes of the source
      literal; nothing below inspects them.
    - A Python [int] is a [Z]; the [float] delay of the retry loop is a
      rational [Q] (a product by a power of two is exact on both sides).
    - A naive [datetime] is the number of microseconds since an
      arbitrary origin, a [timedelta] a number of microseconds.
    - Exceptions are values; a computation that may raise returns a
      [result]. *)

From Stdlib Require Import ZArith QArith Lia Ascii String DecimalString.
From stdpp Require Import gmap strings list.

Local Open Scope string_scope.
Local Open Scope Z_scope.

(** ** Python strings *)

Module Py.

Definition ord (c : ascii) : Z := Z.of_N (N_of_ascii c).
Definition chr (n : Z) : ascii := ascii_of_N (Z.to_N n).

Definition len (s : string) : Z := Z.of_nat (String.length s).

(** [str.isspace] on one character: TAB..CR, FS..US, SPACE, NEL, NBSP. *)
Definition isspace (c : ascii) : bool :=
  let n := ord c in
  ((9 <=? n) && (n <=? 13)) || ((28 <=? n) && (n <=? 32))
  || (n =? 133) || (n =? 160).

Fixpoint lstrip (s : string) : string :=
  match s with
  | EmptyString => EmptyString
  | String c t => if isspace c then lstrip t else s
  end.

Fixpoint rstrip (s : string) : string :=
  match s with
  | EmptyString => EmptyString
  | String c t =>
      match rstrip t with
      | EmptyString => if isspace c then EmptyString else String c EmptyString
      | t' => String c t'
      end
  end.

(** [s.strip()] *)
Definition strip (s : string) : string := rstrip (lstrip s).

(** [str.lower] on one character: A..Z and the capital letters
    U+00C0..U+00DE (the multiplication sign U+00D7 apart). *)
Definition lower_char (c : ascii) : ascii :=
  let n := ord c in
  if ((65 <=? n) && (n <=? 90))
     || ((192 <=? n) && (n <=? 222) && negb (n =? 215))
  then chr (n + 32) else c.

Fixpoint lower (s : string) : string :=
  match s with
  | EmptyString => EmptyString
  | String c t => String (lower_char c) (lower t)
  end.

(** [str.upper] for the letters a..z; the source applies it to the
    values of [ErrorType] only. *)
Definition upper_char (c : ascii) : ascii :=
  let n := ord c in
  if (97 <=? n) && (n <=? 122) then chr (n - 32) else c.

Fixpoint upper (s : string) : string :=
  match s with
  | EmptyString => EmptyString
  | String c t => String (upper_char c) (upper t)
  end.

(** [s.startswith(p)] *)
Fixpoint startswith (p s : string) : bool :=
  match p, s with
  | EmptyString, _ => true
  | String a p', String b s' => if Ascii.eqb a b then startswith p' s' else false
  | String _ _, EmptyString => false
  end.

(** [needle in hay] *)
Fixpoint contains (needle hay : string) : bool :=
  if startswith needle hay then true
  else match hay with
       | EmptyString => false
       | String _ t => contains needle t
       end.

(** Truth value of a [str]: non-empty. *)
Definition truthy (s : string) : bool :=
  match s with EmptyString => false | String _ _ => true end.

(** Every character is white space (the empty string included). *)
Fixpoint whitespace_only (s : string) : bool :=
  match s with
  | EmptyString => true
  | String c t => isspace c && whitespace_only t
  end.

(** [c * n] for a one-character string [c]. *)
Definition replicate_char (n : nat) (c : ascii) : string :=
  Nat.iter n (String c) EmptyString.

(** [s.encode('utf-8')], as a list of bytes. *)
Fixpoint encode_utf8 (s : string) : list Z :=
  match s with
  | EmptyString => []
  | String c t =>
      let n := ord c in
      if n <? 128 then n :: encode_utf8 t
      else Z.lor 192 (Z.shiftr n 6) :: Z.lor 128 (Z.land n 63) :: encode_utf8 t
  end.

(** [range(n)] *)
Definition range (n : Z) : list Z := map Z.of_nat (seq 0 (Z.to_nat n)).

(** [s.endswith(suffix)] *)
Fixpoint endswith (suffix s : string) : bool :=
  if String.eqb s suffix then true
  else match s with
       | EmptyString => false
       | String _ t => endswith suffix t
       end.

(** [str(n)] for an [int] *)
Definition str_int (n : Z) : string := NilZero.string_of_int (Z.to_int n).

End Py.

(** ** [hashlib.md5] (RFC 1321), on lists of bytes *)

Module MD5.

Definition mask32 : Z := 4294967295.
Definition add32 (x y : Z) : Z := Z.land (x + y) mask32.
Definition not32 (x : Z) : Z := Z.lxor x mask32.
Definition rotl32 (x n : Z) : Z :=
  Z.lor (Z.land (Z.shiftl x n) mask32) (Z.shiftr x (32 - n)).

Definition shifts : list Z :=
  [7; 12; 17; 22; 7; 12; 17; 22; 7; 12; 17; 22; 7; 12; 17; 22;
   5; 9; 14; 20; 5; 9; 14; 20; 5; 9; 14; 20; 5; 9; 14; 20;
   4; 11; 16; 23; 4; 11; 16; 23; 4; 11; 16; 23; 4; 11; 16; 23;
   6; 10; 15; 21; 6; 10; 15; 21; 6; 10; 15; 21; 6; 10; 15; 21].

(** [floor (2^32 * |sin (i + 1)|)] for [i = 0..63]. *)
Definition sines : list Z :=
  [3614090360; 3905402710; 606105819; 3250441966; 4118548399; 1200080426;
   2821735955; 4249261313; 1770035416; 2336552879; 4294925233; 2304563134;
   1804603682; 4254626195; 2792965006; 1236535329; 4129170786; 3225465664;
   643717713; 3921069994; 3593408605; 38016083; 3634488961; 3889429448;
   568446438; 3275163606; 4107603335; 1163531501; 2850285829; 4243563512;
   1735328473; 2368359562; 4294588738; 2272392833; 1839030562; 4259657740;
   2763975236; 1272893353; 4139469664; 3200236656; 681279174; 3936430074;
   3572445317; 76029189; 3654602809; 3873151461; 530742520; 3299628645;
   4096336452; 1126891415; 2878612391; 4237533241; 1700485571; 2399980690;
   4293915773; 2240044497; 1873313359; 4264355552; 2734768916; 1309151649;
   4149444226; 3174756917; 718787259; 3951481745].

(** Padding: a one bit, zeros up to 56 modulo 64, then the bit length
    on eight bytes, least significant first. *)
Definition le_bytes (count : nat) (x : Z) : list Z :=
  map (fun i => Z.land (Z.shiftr x (8 * Z.of_nat i)) 255) (seq 0 count).

Definition pad (msg : list Z) : list Z :=
  let n := Z.of_nat (length msg) in
  let zeros := Z.to_nat ((55 - n) mod 64) in
  msg ++ [128] ++ repeat 0 zeros ++ le_bytes 8 (Z.land (8 * n) (2 ^ 64 - 1)).

Fixpoint le_word (bs : list Z) : Z :=
  match bs with
  | [] => 0
  | b :: bs' => Z.lor b (Z.shiftl (le_word bs') 8)
  end.

(** The sixteen words of a 64-byte block. *)
Fixpoint words (count : nat) (block : list Z) : list Z :=
  match count with
  | O => []
  | S k => le_word (take 4 block) :: words k (drop 4 block)
  end.

Definition state : Type := Z * Z * Z * Z.

Definition round (m : list Z) (st : state) (i : nat) : state :=
  let '(a, b, c, d) := st in
  let iz := Z.of_nat i in
  let '(f, g) :=
    if iz <? 16 then (Z.lor (Z.land b c) (Z.land (not32 b) d), iz)
    else if iz <? 32 then
      (Z.lor (Z.land d b) (Z.land (not32 d) c), (5 * iz + 1) mod 16)
    else if iz <? 48 then (Z.lxor b (Z.lxor c d), (3 * iz + 5) mod 16)
    else (Z.lxor c (Z.lor b (not32 d)), (7 * iz) mod 16) in
  let x := add32 (add32 (add32 a f) (nth i sines 0)) (nth (Z.to_nat g) m 0) in
  (d, add32 b (rotl32 x (nth i shifts 0)), b, c).

Definition compress (st : state) (block : list Z) : state :=
  let '(a0, b0, c0, d0) := st in
  let '(a, b, c, d) := fold_left (round (words 16 block)) (seq 0 64) st in
  (add32 a0 a, add32 b0 b, add32 c0 c, add32 d0 d).

Fixpoint blocks (count : nat) (st : state) (bytes : list Z) : state :=
  match count with
  | O => st
  | S k => blocks k (compress st (take 64 bytes)) (drop 64 bytes)
  end.

Definition init : state := (1732584193, 4023233417, 2562383102, 271733878).

Definition digest (msg : list Z) : list Z :=
  let p := pad msg in
  let '(a, b, c, d) := blocks (length p / 64)%nat init p in
  le_bytes 4 a ++ le_bytes 4 b ++ le_bytes 4 c ++ le_bytes 4 d.

Definition hex_digit (n : Z) : ascii :=
  if n <? 10 then Py.chr (48 + n) else Py.chr (87 + n).

Fixpoint hex (bytes : list Z) : string :=
  match bytes with
  | [] => EmptyString
  | b :: bs => String (hex_digit (Z.shiftr b 4)) (String (hex_digit (Z.land b 15)) (hex bs))
  end.

(** [hashlib.md5(data).hexdigest()] *)
Definition hexdigest (data : list Z) : string := hex (digest data).

End MD5.

(** ** [python/ollama_errors.py] *)

Module Errors.

(** [class ErrorType(Enum)] *)
Inductive ErrorType : Type :=
| CONNECTION | TIMEOUT | AUTHENTICATION | VALIDATION | RATE_LIMIT
| MODEL_NOT_FOUND | INVALID_RESPONSE | FILE_SYSTEM | NETWORK | UNKNOWN.

(** The members in definition order: iterating [ErrorType]. *)
Definition ErrorType_members : list ErrorType :=
  [CONNECTION; TIMEOUT; AUTHENTICATION; VALIDATION; RATE_LIMIT;
   MODEL_NOT_FOUND; INVALID_RESPONSE; FILE_SYSTEM; NETWORK; UNKNOWN].

(** [error_type.value] *)
Definition value (k : ErrorType) : string :=
  match k with
  | CONNECTION => "connection"
  | TIMEOUT => "timeout"
  | AUTHENTICATION => "authentication"
  | VALIDATION => "validation"
  | RATE_LIMIT => "rate_limit"
  | MODEL_NOT_FOUND => "model_not_found"
  | INVALID_RESPONSE => "invalid_response"
  | FILE_SYSTEM => "file_system"
  | NETWORK => "network"
  | UNKNOWN => "unknown"
  end.

(** The classes of the [OllamaError] family.  Only the base class
    takes its kind from the caller; every subclass passes a fixed one
    to the base constructor. *)
Inductive OllamaClass : Type :=
| COllamaError (error_type : ErrorType)
| CConnectionError
| CTimeoutError
| CValidationError
| CModelNotFoundError
| CRateLimitError.

Definition class_error_type (c : OllamaClass) : ErrorType :=
  match c with
  | COllamaError k => k
  | CConnectionError => CONNECTION
  | CTimeoutError => TIMEOUT
  | CValidationError => VALIDATION
  | CModelNotFoundError => MODEL_NOT_FOUND
  | CRateLimitError => RATE_LIMIT
  end.

Definition class_name (c : OllamaClass) : string :=
  match c with
  | COllamaError _ => "OllamaError"
  | CConnectionError => "ConnectionError"
  | CTimeoutError => "TimeoutError"
  | CValidationError => "ValidationError"
  | CModelNotFoundError => "ModelNotFoundError"
  | CRateLimitError => "RateLimitError"
  end.

(** An instance of [OllamaError] or of one of its subclasses. *)
Record OllamaError : Type := mkOllamaError {
  cls : OllamaClass;
  message : string;
  details : list (string * string);
  timestamp : Z
}.

Definition error_type (e : OllamaError) : ErrorType := class_error_type (cls e).

(** [OllamaError.__str__] *)
Definition OllamaError_str (e : OllamaError) : string :=
  "[" ++ Py.upper (value (error_type e)) ++ "] " ++ message e.

(** Any other exception, described by what the classifier reads of
    it: its type name, its [str] and the [isinstance] tests. *)
Record PyException : Type := mkPyException {
  type_name : string;
  text : string;
  is_asyncio_TimeoutError : bool;
  is_aiohttp_ClientError : bool;
  is_FileNotFoundError : bool;
  is_PermissionError : bool
}.

Inductive exc : Type :=
| Raw (e : PyException)
| Ollama (e : OllamaError).

(** An exception raised by the interpreter or the standard library. *)
Definition builtin (name msg : string) : exc :=
  Raw (mkPyException name msg false false false false).

Inductive result (A : Type) : Type :=
| Return (a : A)
| Raise (e : exc).
Arguments Return {A} a.
Arguments Raise {A} e.

Definition str (error : exc) : string :=
  match error with
  | Raw e => text e
  | Ollama e => OllamaError_str e
  end.

Definition type_name_of (error : exc) : string :=
  match error with
  | Raw e => type_name e
  | Ollama e => class_name (cls e)
  end.

Definition isinstance_OllamaError (error : exc) : bool :=
  match error with Ollama _ => true | Raw _ => false end.

Definition isinstance (test : PyException -> bool) (error : exc) : bool :=
  match error with Raw e => test e | Ollama _ => false end.

(** The [details] every branch of the classifier builds. *)
Definition original (error : exc) : list (string * string) :=
  [("original_error", str error); ("error_type", type_name_of error)].

(** [ErrorHandler._classify_error]; [now] is the clock read by the
    constructor of the new error. *)
Definition _classify_error (now : Z) (error : exc) : OllamaError :=
  let error_str := Py.lower (str error) in
  if isinstance is_asyncio_TimeoutError error then
    mkOllamaError CTimeoutError "La operación tardó demasiado en completarse"
                  (original error) now
  else if isinstance is_aiohttp_ClientError error then
    if Py.contains "timeout" error_str then
      mkOllamaError CTimeoutError "Timeout de conexión con Ollama"
                    (original error) now
    else if Py.contains "connection" error_str then
      mkOllamaError CConnectionError "No se puede conectar a Ollama"
                    (original error) now
    else
      mkOllamaError CConnectionError "Error de red con Ollama"
                    (original error) now
  else if isinstance is_FileNotFoundError error then
    mkOllamaError CValidationError "Archivo no encontrado" (original error) now
  else if isinstance is_PermissionError error then
    mkOllamaError CValidationError "Error de permisos" (original error) now
  else
    mkOllamaError (COllamaError UNKNOWN) ("Error inesperado: " ++ str error)
                  (original error) now.

(** [ErrorHandler._get_user_message]: the table has an entry for each
    kind, so the default of [messages.get] is never taken. *)
Definition _get_user_message (error : OllamaError) : string :=
  match error_type error with
  | CONNECTION => "❌ No se puede conectar a Ollama. Verifica que esté ejecutándose."
  | TIMEOUT => "⏰ La operación tardó demasiado. Intenta de nuevo."
  | AUTHENTICATION => "🔐 Error de autenticación. Verifica tu configuración."
  | VALIDATION => "⚠️ Error de validación. Verifica los datos de entrada."
  | RATE_LIMIT => "🚫 Demasiadas consultas. Espera un momento."
  | MODEL_NOT_FOUND => "🤖 Modelo no encontrado. Verifica que esté instalado."
  | INVALID_RESPONSE => "📡 Respuesta inválida del servidor."
  | FILE_SYSTEM => "📁 Error del sistema de archivos."
  | NETWORK => "🌐 Error de red. Verifica tu conexión."
  | UNKNOWN => "❓ Error inesperado. Revisa los logs para más detalles."
  end.

(** The statistics held by an [ErrorHandler]. *)
Record ErrorHandler : Type := mkErrorHandler {
  log_file : string;
  error_count : Z;
  error_stats : gmap string Z
}.

(** [{error_type.value: 0 for error_type in ErrorType}] *)
Definition zero_stats : gmap string Z :=
  foldl (fun d k => <[value k := 0]> d) ∅ ErrorType_members.

(** [ErrorHandler.__init__] (creating the log directory is left out). *)
Definition new_handler (log_file : string) : ErrorHandler :=
  mkErrorHandler log_file 0 zero_stats.

(** The conversion at the head of [handle_error]. *)
Definition as_ollama (now : Z) (error : exc) : OllamaError :=
  match error with
  | Ollama e => e
  | Raw _ => _classify_error now error
  end.

(** [ErrorHandler.handle_error].  The result is the user message and
    the handler after the call; [self.error_stats[k] += 1] raises
    [KeyError] on a missing key, after the total was incremented.
    Appending the entry to the log file does not touch the handler
    and is left out. *)
Definition handle_error (now : Z) (self : ErrorHandler) (error : exc)
  : result string * ErrorHandler :=
  let self1 := mkErrorHandler (log_file self) (error_count self + 1) (error_stats self) in
  let error' := as_ollama now error in
  let k := value (error_type error') in
  match error_stats self1 !! k with
  | None => (Raise (builtin "KeyError" ("'" ++ k ++ "'")), self1)
  | Some n =>
      let self2 := mkErrorHandler (log_file self1) (error_count self1)
                                  (<[k := n + 1]> (error_stats self1)) in
      (Return (_get_user_message error'), self2)
  end.

(** [ErrorHandler.clear_stats] *)
Definition clear_stats (self : ErrorHandler) : ErrorHandler :=
  mkErrorHandler (log_file self) 0 zero_stats.

#[global] Instance ErrorType_eq_dec : EqDecision ErrorType.
Proof. solve_decision. Defined.

(** The count recorded for a kind, and the sum of the counts of the
    ten kinds. *)
Definition count (self : ErrorHandler) (k : ErrorType) : Z :=
default 0 (error_stats self !! value k).

Definition stats_sum (self : ErrorHandler) : Z :=
foldr (fun k acc => count self k + acc) 0 ErrorType_members.

(** The invariant of the statistics: every kind has an entry, and the
    total is the sum of the entries. *)
Definition stats_ok (self : ErrorHandler) : Prop :=
(forall k, is_Some (error_stats self !! value k))
/\ error_count self = stats_sum self.

(** *** Validation helpers *)

Definition validate_question (question : string) : bool :=
  if negb (Py.truthy question) || negb (Py.truthy (Py.strip question)) then false
  else if Py.len (Py.strip question) <? 3 then false
  else if Py.len question >? 10000 then false
  else true.

Definition dangerous_chars : list string :=
  ["<"; ">"; String "034" EmptyString; "'"; "&"; "|"; ";"; "`"].

Definition validate_model (model : string) : bool :=
  if negb (Py.truthy model) || negb (Py.truthy (Py.strip model)) then false
  else if existsb (fun char => Py.contains char model) dangerous_chars then false
  else true.

(** [exists] stands for [os.path.exists]. *)
Definition validate_file_path (exists_ : string -> bool) (file_path : string) : bool :=
  if negb (Py.truthy file_path) || negb (Py.truthy (Py.strip file_path)) then true
  else if Py.contains ".." file_path || Py.startswith "/" file_path then false
  else if negb (exists_ file_path) then false
  else true.

(** *** Retry mechanism *)

(** What a run of [retry_operation] does besides returning: calls of
    the operation, warnings printed (attempt number and wait) and
    sleeps. *)
Inductive event : Type :=
| Attempt
| Warn (number : Z) (wait_time : Q)
| Sleep (wait_time : Q).

(** [except (ConnectionError, TimeoutError)]: the two classes of this
    module, which shadow the built-in ones. *)
Definition retryable (e : exc) : bool :=
  match e with
  | Ollama o =>
      match cls o with
      | CConnectionError | CTimeoutError => true
      | _ => false
      end
  | Raw _ => false
  end.

(** [raise last_error]: raising [None] is a [TypeError]. *)
Definition raise_last {A : Type} (last_error : option exc) : result A :=
  match last_error with
  | Some e => Raise e
  | None => Raise (builtin "TypeError" "exceptions must derive from BaseException")
  end.

Section Retry.

(** The operation acts on a world of type [W] and returns a [V] or
    raises. *)
Context {W V : Type}.
Variable operation : W -> result V * W.

(** The [for] loop over the attempts still to make, and the final
    [raise]. *)
Fixpoint retry_loop (attempts : list Z) (max_retries : Z) (delay : Q)
         (last_error : option exc) (w : W) : result V * W * list event :=
  match attempts with
  | [] => (raise_last last_error, w, [])
  | attempt :: rest =>
      match operation w with
      | (Return v, w') => (Return v, w', [Attempt])
      | (Raise e, w') =>
          if retryable e then
            if attempt <? max_retries - 1 then
              let wait_time := Qmult delay (inject_Z (2 ^ attempt)) in
              let '(r, w'', tr) := retry_loop rest max_retries delay (Some e) w' in
              (r, w'', Attempt :: Warn (attempt + 1) wait_time :: Sleep wait_time :: tr)
            else (raise_last (Some e), w', [Attempt])
          else (Raise e, w', [Attempt])
      end
  end.

Definition retry_operation (max_retries : Z) (delay : Q) (w : W)
  : result V * W * list event :=
  retry_loop (Py.range max_retries) max_retries delay None w.

(** The world after [n] calls of the operation, and the outcome of
    call number [n] (from 0). *)
Fixpoint world_after (n : nat) (w : W) : W :=
  match n with
  | O => w
  | S k => world_after k (snd (operation w))
  end.

Definition outcome (n : nat) (w : W) : result V :=
  fst (operation (world_after n w)).

End Retry.

Definition is_attempt (ev : event) : bool :=
  match ev with Attempt => true | _ => false end.

(** Number of calls of the operation in a trace, and its sleeps. *)
Definition attempts_made (tr : list event) : Z :=
  Z.of_nat (length (List.filter is_attempt tr)).

Definition waits (tr : list event) : list Q :=
  omap (fun ev => match ev with Sleep t => Some t | _ => None end) tr.

(** [delay * (2 ** attempt)] *)
Definition backoff_wait (delay : Q) (attempt : Z) : Q :=
  Qmult delay (inject_Z (2 ^ attempt)).

(** The events of one failed attempt that is retried. *)
Definition failed_attempt (delay : Q) (attempt : Z) : list event :=
  [Attempt; Warn (attempt + 1) (backoff_wait delay attempt);
   Sleep (backoff_wait delay attempt)].

(** An outcome the loop of [retry_operation] may retry. *)
Definition retryable_failure {V : Type} (r : result V) : bool :=
  match r with
  | Raise e => retryable e
  | Return _ => false
  end.


(** *** The module-level handler and the decorator *)

(** Successive calls of the module-level [handle_error], each with the
    clock reading of its call, on the one global handler; a call that
    raises ends the run. *)
Fixpoint handle_errors (self : ErrorHandler) (errors : list (Z * exc))
  : result (list string) * ErrorHandler :=
  match errors with
  | [] => (Return [], self)
  | (now, error) :: rest =>
      match handle_error now self error with
      | (Raise e, self') => (Raise e, self')
      | (Return msg, self') =>
          match handle_errors self' rest with
          | (Return msgs, self'') => (Return (msg :: msgs), self'')
          | (Raise e, self'') => (Raise e, self'')
          end
      end
  end.

Section Decorator.

(** The decorated function acts on a world [W]; [is_Exception] is the
    test [isinstance(e, Exception)] on exceptions outside the family
    (every [OllamaError] passes it). *)
Context {W V : Type}.
Variable is_Exception : PyException -> bool.
Variable func : W -> result V * W.

Definition except_Exception (e : exc) : bool :=
  match e with
  | Ollama _ => true
  | Raw p => is_Exception p
  end.

(** [error_handler(func)]: the wrapper, synchronous or not.  The result
    is what the wrapper returns ([None] after a handled failure), the
    global handler, the world and the lines printed. *)
Definition error_handler (now : Z) (handler : ErrorHandler) (w : W)
  : result (option V) * ErrorHandler * W * list string :=
  match func w with
  | (Return v, w') => (Return (Some v), handler, w', [])
  | (Raise e, w') =>
      if except_Exception e then
        match handle_error now handler e with
        | (Return error_message, handler') =>
            (Return None, handler', w', [error_message])
        | (Raise e', handler') => (Raise e', handler', w', [])
        end
      else (Raise e, handler, w', [])
  end.

End Decorator.

End Errors.

(** ** [python/ollama_cache.py] *)

Module OllamaCache.

Import Errors.

(** A value read by [json.load]. *)
#[local] Unset Elimination Schemes.
Inductive json : Type :=
| JNull
| JBool (b : bool)
| JNumber (n : Z)
| JString (s : string)
| JArray (items : list json)
| JObject (members : list (string * json)).
#[local] Set Elimination Schemes.

(** What a file holds, by what reading it as UTF-8 and [json.load]
    make of it; [json.dump] of a value [j] writes a text that loads
    back as [j]. *)
Inductive payload : Type :=
| NotUtf8
| NotJson
| Json (j : json).

(** A file of the cache directory: its payload, and whether [open]
    is permitted on it.  The directory itself exists and is writable
    (the constructor creates it), so [os.remove] succeeds on every
    file in it. *)
Record file : Type := mkFile {
  contents : payload;
  openable : bool
}.

Record cache : Type := mkCache {
  cache_dir : string;
  max_age_seconds : Z
}.

(** [OllamaCache.__init__] *)
Definition new_cache (cache_dir : string) (max_age_hours : Z) : cache :=
  mkCache cache_dir (max_age_hours * 3600).

Definition default_cache : cache := new_cache "cache" 24.

Definition _generate_cache_key (question context model : string) : string :=
  let content := question ++ "|" ++ context ++ "|" ++ model in
  MD5.hexdigest (Py.encode_utf8 content).

Fixpoint endswith_slash (s : string) : bool :=
  match s with
  | EmptyString => false
  | String c EmptyString => Ascii.eqb c "/"
  | String _ t => endswith_slash t
  end.

(** [os.path.join(a, b)] for a relative [b]. *)
Definition path_join (a b : string) : string :=
  if negb (Py.truthy a) || endswith_slash a then a ++ b else a ++ "/" ++ b.

Definition _get_cache_file_path (self : cache) (cache_key : string) : string :=
  path_join (cache_dir self) (cache_key ++ ".json").

(** The exceptions that can arise inside the [try] block of [get]. *)
Inductive failure : Type :=
| JSONDecodeError
| KeyError (key : string)
| OSError
| UnicodeDecodeError
| TypeError (msg : string)
| ValueError (msg : string).

(** [except (json.JSONDecodeError, KeyError, OSError)] *)
Definition caught (f : failure) : bool :=
  match f with
  | JSONDecodeError | KeyError _ | OSError => true
  | UnicodeDecodeError | TypeError _ | ValueError _ => false
  end.

Definition to_exc (f : failure) : exc :=
  match f with
  | JSONDecodeError => builtin "JSONDecodeError" "Expecting value"
  | KeyError k => builtin "KeyError" ("'" ++ k ++ "'")
  | OSError => builtin "PermissionError" "Permission denied"
  | UnicodeDecodeError => builtin "UnicodeDecodeError" "invalid start byte"
  | TypeError m => builtin "TypeError" m
  | ValueError m => builtin "ValueError" m
  end.

(** A [dict] built from members in order keeps the last value of a
    repeated key. *)
Fixpoint dict_get (key : string) (members : list (string * json)) : option json :=
  match members with
  | [] => None
  | (k, v) :: rest =>
      match dict_get key rest with
      | Some v' => Some v'
      | None => if String.eqb k key then Some v else None
      end
  end.

(** [cache_data[key]] for a string key. *)
Definition getitem (cache_data : json) (key : string) : failure + json :=
  match cache_data with
  | JObject members =>
      match dict_get key members with
      | Some v => inr v
      | None => inl (KeyError key)
      end
  | JArray _ => inl (TypeError "list indices must be integers or slices, not str")
  | JString _ => inl (TypeError "string indices must be integers")
  | JNumber _ | JBool _ | JNull => inl (TypeError "object is not subscriptable")
  end.

(** What [datetime.fromisoformat] makes of a string: a [ValueError],
    a naive datetime or one with a time zone. *)
Inductive parsed_datetime : Type :=
| Invalid
| Naive (t : Z)
| Aware (t : Z).

(** [timedelta(seconds=n)], in microseconds. *)
Definition timedelta_seconds (n : Z) : Z := n * 1000000.

Section Clock.

(** [datetime.isoformat] and [datetime.fromisoformat] of the
    standard library. *)
Variable isoformat : Z -> string.
Variable fromisoformat : string -> parsed_datetime.

(** The body of the [try] block of [get], on the file found at
    [cache_file]; [now] is the reading of [datetime.now()]. *)
Definition try_get (self : cache) (now : Z) (fs : gmap string file)
           (cache_file : string) (f : file)
  : (failure + option json) * gmap string file :=
  if negb (openable f) then (inl OSError, fs)
  else
    match contents f with
    | NotUtf8 => (inl UnicodeDecodeError, fs)
    | NotJson => (inl JSONDecodeError, fs)
    | Json cache_data =>
        match getitem cache_data "timestamp" with
        | inl err => (inl err, fs)
        | inr (JString s) =>
            match fromisoformat s with
            | Invalid => (inl (ValueError "Invalid isoformat string"), fs)
            | Aware _ =>
                (inl (TypeError "can't subtract offset-naive and offset-aware datetimes"), fs)
            | Naive cache_time =>
                if now - cache_time >? timedelta_seconds (max_age_seconds self) then
                  (inr None, delete cache_file fs)
                else
                  match getitem cache_data "response" with
                  | inl err => (inl err, fs)
                  | inr response => (inr (Some response), fs)
                  end
            end
        | inr _ => (inl (TypeError "fromisoformat: argument must be str"), fs)
        end
    end.

(** [OllamaCache.get] *)
Definition get (self : cache) (now : Z) (fs : gmap string file)
           (question context model : string)
  : result (option json) * gmap string file :=
  let cache_key := _generate_cache_key question context model in
  let cache_file := _get_cache_file_path self cache_key in
  match fs !! cache_file with
  | None => (Return None, fs)
  | Some f =>
      match try_get self now fs cache_file f with
      | (inr r, fs') => (Return r, fs')
      | (inl err, fs') =>
          if caught err then (Return None, delete cache_file fs')
          else (Raise (to_exc err), fs')
      end
  end.

(** [OllamaCache.set]: when [open] fails the warning is printed and
    nothing is written. *)
Definition set (self : cache) (now : Z) (fs : gmap string file)
           (question response context model : string)
  : gmap string file :=
  let cache_key := _generate_cache_key question context model in
  let cache_file := _get_cache_file_path self cache_key in
  let cache_data :=
    JObject [("question", JString question);
             ("response", JString response);
             ("context", JString context);
             ("model", JString model);
             ("timestamp", JString (isoformat now));
             ("cache_key", JString cache_key)] in
  match fs !! cache_file with
  | Some f =>
      if openable f then <[cache_file := mkFile (Json cache_data) true]> fs
      else fs
  | None => <[cache_file := mkFile (Json cache_data) true]> fs
  end.

End Clock.

(** *** The module-level cache *)

(** [_cache = OllamaCache()] and the functions over it; an argument the
    caller leaves out is the empty string. *)
Definition get_cached_response (fromisoformat : string -> parsed_datetime)
           (now : Z) (fs : gmap string file) (question context model : string)
  : result (option json) * gmap string file :=
  get fromisoformat default_cache now fs question context model.

Definition cache_response (isoformat : Z -> string)
           (now : Z) (fs : gmap string file) (question response context model : string)
  : gmap string file :=
  set isoformat default_cache now fs question response context model.

(** [set] with a response that is any JSON value: the response only
    goes into the record, the key is made of the three strings. *)
Definition set_value (isoformat : Z -> string) (self : cache) (now : Z)
           (fs : gmap string file) (question : string) (response : json)
           (context model : string) : gmap string file :=
  let cache_key := _generate_cache_key question context model in
  let cache_file := _get_cache_file_path self cache_key in
  let cache_data :=
    JObject [("question", JString question);
             ("response", response);
             ("context", JString context);
             ("model", JString model);
             ("timestamp", JString (isoformat now));
             ("cache_key", JString cache_key)] in
  match fs !! cache_file with
  | Some f =>
      if openable f then <[cache_file := mkFile (Json cache_data) true]> fs
      else fs
  | None => <[cache_file := mkFile (Json cache_data) true]> fs
  end.

(** *** Clearing and statistics *)

(** What [clear] and [get_stats] see of a file of the cache directory:
    its name, its modification time in seconds ([None] when reading it
    raises [OSError]), its size in bytes, and whether [os.remove]
    succeeds on it. *)
Record dir_entry : Type := mkEntry {
  filename : string;
  st_mtime : option Q;
  st_size : Z;
  removable : bool
}.

(** The threshold of [clear], in seconds. *)
Definition clear_threshold (self : cache) (max_age_hours : option Z) : Z :=
  let max_age_hours :=
    match max_age_hours with
    | None => max_age_seconds self / 3600
    | Some h => h
    end in
  max_age_hours * 3600.

(** One turn of the loop of [clear]: is the entry removed? *)
Definition cleared (max_age_seconds : Z) (now : Q) (e : dir_entry) : bool :=
  if negb (Py.endswith ".json" (filename e)) then false
  else match st_mtime e with
       | None => false
       | Some file_time =>
           if negb (Qle_bool (Qminus now file_time) (inject_Z max_age_seconds))
           then removable e
           else false
       end.

(** The loop of [clear] over the listing: the count, and the entries
    left in the directory. *)
Fixpoint clear_loop (max_age_seconds : Z) (now : Q) (listing : list dir_entry)
         (cleared_count : Z) : Z * list dir_entry :=
  match listing with
  | [] => (cleared_count, [])
  | e :: rest =>
      if cleared max_age_seconds now e then
        clear_loop max_age_seconds now rest (cleared_count + 1)
      else
        let '(n, kept) := clear_loop max_age_seconds now rest cleared_count in
        (n, e :: kept)
  end.

(** [OllamaCache.clear]; [now] is the reading of [time.time()]. *)
Definition clear (self : cache) (max_age_hours : option Z) (now : Q)
           (listing : list dir_entry) : Z * list dir_entry :=
  clear_loop (clear_threshold self max_age_hours) now listing 0.


Section Scan.

(** [datetime.fromtimestamp] *)
Variable fromtimestamp : Q -> Z.



End Scan.

End OllamaCache.

(** ** [python/ollama_simple_async.py]: the users of the cache and of the retry *)

Module Client.

Import Errors OllamaCache.

(** What the request of [_query] comes to: an exception raised while
    connecting, posting or reading the body (never one of the classes
    of [ollama_errors]: the HTTP library does not know them), status
    200 with the parsed body, or another status with the body as text. *)
Inductive http_reply : Type :=
| Failed (e : PyException)
| Status200 (data : json)
| StatusOther (status : Z) (body : string).

(** Truth value of what the cache returns. *)
Definition json_truthy (v : json) : bool :=
  match v with
  | JNull => false
  | JBool b => b
  | JNumber n => negb (n =? 0)
  | JString s => Py.truthy s
  | JArray items => match items with [] => false | _ => true end
  | JObject members => match members with [] => false | _ => true end
  end.

(** [data.get('response', 'No response')] *)
Definition get_response (data : json) : result json :=
  match data with
  | JObject members =>
      match dict_get "response" members with
      | Some v => Return v
      | None => Return (JString "No response")
      end
  | _ => Raise (builtin "AttributeError" "object has no attribute 'get'")
  end.

Definition newline : string := String "010" EmptyString.

Definition prompt_of (question context : string) : string :=
  "Project files:" ++ newline ++ context ++ newline ++ newline
  ++ "Question: " ++ question ++ newline ++ newline ++ "Answer:".

Section Query.

(** The network and the clock form a state [N]; a world is that state
    and the cache directory. *)
Context {N : Type}.
Variable isoformat : Z -> string.
Variable fromisoformat : string -> parsed_datetime.
Variable clock : N -> Z.
Variable post : string -> string -> N -> http_reply * N.

(** The inner [_query] of [query_ollama]. *)
Definition _query (question context model : string) (w : N * gmap string file)
  : result json * (N * gmap string file) :=
  let prompt := prompt_of question context in
  match post model prompt (fst w) with
  | (Failed e, n') => (Raise (Raw e), (n', snd w))
  | (Status200 data, n') =>
      match get_response data with
      | Raise e => (Raise e, (n', snd w))
      | Return response_text =>
          (Return response_text,
           (n', set_value isoformat default_cache (clock n') (snd w)
                          question response_text context model))
      end
  | (StatusOther status body, n') =>
      (Raise (builtin "Exception"
                      ("Error: HTTP " ++ Py.str_int status ++ " - " ++ body)),
       (n', snd w))
  end.

(** [query_ollama]: the two validators are called and their answers
    dropped; a cached response that is truthy is returned, otherwise
    [_query] runs under [retry_operation] with its defaults. *)
Definition query_ollama (question context model : string) (w : N * gmap string file)
  : result json * (N * gmap string file) * list event :=
  let _ := validate_question question in
  let _ := validate_model model in
  match get_cached_response fromisoformat (clock (fst w)) (snd w)
                            question context model with
  | (Raise e, fs') => (Raise e, (fst w, fs'), [])
  | (Return cached_response, fs') =>
      match cached_response with
      | Some v =>
          if json_truthy v then (Return v, (fst w, fs'), [])
          else retry_operation (_query question context model) 3 1%Q (fst w, fs')
      | None => retry_operation (_query question context model) 3 1%Q (fst w, fs')
      end
  end.

End Query.

(** The cache calls of [main], for a response that is a string.  The
    lookup passes question and context; the store passes the context
    in the place of the response and the response in the place of the
    context. *)
Definition main_lookup (fromisoformat : string -> parsed_datetime) (now : Z)
           (fs : gmap string file) (question context : string)
  : result (option json) * gmap string file :=
  get_cached_response fromisoformat now fs question context EmptyString.

Definition main_store (isoformat : Z -> string) (now : Z) (fs : gmap string file)
           (question context response : string) : gmap string file :=
  cache_response isoformat now fs question context response EmptyString.

End Client.

(** ** Documented behaviour and sample inputs *)

Section Samples.

Import Py Errors.


(** A client failure whose message names neither a timeout nor a
    connection, such as [aiohttp.ClientPayloadError("payload too short")]. *)
Definition payload_error : exc :=
  Raw (mkPyException "ClientPayloadError" "payload too short" false true false false).

(** Three errors of the family, as the callers of the module raise them. *)
Definition connection_refused : exc :=
  Ollama (mkOllamaError CConnectionError "No se puede conectar a Ollama" [] 0).

Definition timed_out : exc :=
  Ollama (mkOllamaError CTimeoutError "Timeout de conexión con Ollama" [] 0).

Definition missing_file : exc :=
  Ollama (mkOllamaError CValidationError "Archivo no encontrado" [] 0).

(** The record inside [missing_file]. *)
Definition missing_file_error : OllamaError :=
  mkOllamaError CValidationError "Archivo no encontrado" [] 0.

(** An operation on a call counter that fails twice with a
    [ConnectionError] and succeeds from the third call on. *)
Definition flaky_operation (calls : nat) : result string * nat :=
  (if (calls <? 2)%nat then Raise connection_refused else Return "respuesta",
   S calls).

(** An operation that times out on every call. *)
Definition failing_operation (calls : nat) : result string * nat :=
  (Raise timed_out, S calls).

(** An operation that rejects its input on every call. *)
Definition invalid_operation (calls : nat) : result string * nat :=
  (Raise missing_file, S calls).

(** A stand-in for [isoformat] and [fromisoformat] on the first
    seconds of 2024, the origin of time being 2024-01-01T00:00:00. *)
Definition sample_isoformat (t : Z) : string :=
  if t =? 0 then "2024-01-01T00:00:00"
  else if t =? 1000000 then "2024-01-01T00:00:01"
  else "2024-01-01T00:00:02".

Definition sample_fromisoformat (s : string) : OllamaCache.parsed_datetime :=
  if String.eqb s "2024-01-01T00:00:00" then OllamaCache.Naive 0
  else if String.eqb s "2024-01-01T00:00:01" then OllamaCache.Naive 1000000
  else if String.eqb s "2024-01-01T00:00:02" then OllamaCache.Naive 2000000
  else OllamaCache.Invalid.


(** Two servers whose state is the time: one answers every request
    after a second with the same text, the other with status 500. *)
Definition answering_server (model prompt : string) (time : Z) : Client.http_reply * Z :=
  (Client.Status200 (OllamaCache.JObject [("response", OllamaCache.JString "hola")]),
   time + 1000000).

Definition broken_server (model prompt : string) (time : Z) : Client.http_reply * Z :=
  (Client.StatusOther 500 "Internal Server Error", time + 1000000).

(** A cache whose entries expire at once. *)
Definition short_cache : OllamaCache.cache := OllamaCache.new_cache "cache" 0.

End Samples.

(** * Properties *)

(** ** The model on known values *)

Section KnownValues.

Import Py.

(** Digests of RFC 1321 and of [hashlib.md5]. *)
Example md5_empty :
  MD5.hexdigest (encode_utf8 EmptyString) = "d41d8cd98f00b204e9800998ecf8427e".
Proof. vm_compute. reflexivity. Qed.

Example md5_a : MD5.hexdigest (encode_utf8 "a") = "0cc175b9c0f1b6a831c399e269772661".
Proof. vm_compute. reflexivity. Qed.

Example md5_abc : MD5.hexdigest (encode_utf8 "abc") = "900150983cd24fb0d6963f7d28e17f72".
Proof. vm_compute. reflexivity. Qed.

Example md5_message_digest :
  MD5.hexdigest (encode_utf8 "message digest") = "f96b697d7cb7938d525a2f31aaf161d0".
Proof. vm_compute. reflexivity. Qed.

(** Two blocks, and a two-byte UTF-8 sequence (U+00E9). *)
Example md5_two_blocks :
  MD5.hexdigest (encode_utf8 (replicate_char 64 "a")) = "014842d480b571495a4a0363793f7367".
Proof. vm_compute. reflexivity. Qed.

Example md5_latin1 :
  MD5.hexdigest (encode_utf8 (String (chr 233) "|x|")) = "8f16da22785d560ff4ba6a01a1c7ad36".
Proof. vm_compute. reflexivity. Qed.

Example strip_both_ends : strip (String (chr 9) "  ab c  ") = "ab c".
Proof. reflexivity. Qed.

Example lower_mixed : lower "Server TIMEOUT" = "server timeout".
Proof. reflexivity. Qed.

Example contains_inside : contains "timeout" "connection timeout to host" = true.
Proof. reflexivity. Qed.

Example contains_absent : contains "timeout" "time out" = false.
Proof. reflexivity. Qed.

Example dangerous_chars_codes :
  map (fun s => match s with String c EmptyString => ord c | _ => -1 end)
      Errors.dangerous_chars
  = [60; 62; 34; 39; 38; 124; 59; 96].
Proof. reflexivity. Qed.

Example cache_file_of_key :
  OllamaCache._get_cache_file_path OllamaCache.default_cache
    (OllamaCache._generate_cache_key "q" EmptyString EmptyString)
  = "cache/d866498ab0d50afbc48a85eb2a7246a7.json".
Proof. vm_compute. reflexivity. Qed.

End KnownValues.

(** ** Strings *)

Section StringFacts.

Import Py.

Lemma len_nonneg s : 0 <= len s.
Proof. unfold len. lia. Qed.

Lemma lstrip_length s : (String.length (lstrip s) <= String.length s)%nat.
Proof.
  induction s as [|c t IH]; simpl; [lia|].
  destruct (isspace c); simpl; lia.
Qed.

Lemma rstrip_length s : (String.length (rstrip s) <= String.length s)%nat.
Proof.
  induction s as [|c t IH]; simpl; [lia|].
  destruct (rstrip t) as [|c' t'].
  - destruct (isspace c); simpl; lia.
  - simpl in *. lia.
Qed.

Lemma strip_len_le s : len (strip s) <= len s.
Proof.
  unfold len, strip.
  pose proof (rstrip_length (lstrip s)). pose proof (lstrip_length s). lia.
Qed.

Lemma truthy_len s : truthy s = true <-> 0 < len s.
Proof. destruct s; unfold len; simpl; split; intros; try lia; congruence. Qed.

Lemma lstrip_whitespace s : whitespace_only s = true -> lstrip s = EmptyString.
Proof.
  induction s as [|c t IH]; simpl; [reflexivity|].
  destruct (isspace c); simpl; [exact IH | discriminate].
Qed.

Lemma strip_whitespace s : whitespace_only s = true -> strip s = EmptyString.
Proof. intros H. unfold strip. rewrite (lstrip_whitespace s H). reflexivity. Qed.

Lemma rstrip_truthy s : whitespace_only s = false -> truthy (rstrip s) = true.
Proof.
  induction s as [|c t IH]; simpl; [discriminate|].
  destruct (isspace c) eqn:Hc; simpl.
  - intros Ht. specialize (IH Ht). destruct (rstrip t); [discriminate | reflexivity].
  - intros _. destruct (rstrip t); reflexivity.
Qed.

Lemma lstrip_not_whitespace s :
  whitespace_only s = false -> whitespace_only (lstrip s) = false.
Proof.
  induction s as [|c t IH]; simpl; [discriminate|].
  destruct (isspace c) eqn:Hc; simpl; [exact IH|].
  intros _. rewrite Hc. reflexivity.
Qed.

Lemma strip_not_whitespace s : whitespace_only s = false -> truthy (strip s) = true.
Proof. intros H. apply rstrip_truthy, lstrip_not_whitespace, H. Qed.

(** A string with a character that is not white space somewhere. *)
Lemma contains_not_whitespace needle c rest hay :
  needle = String c rest -> isspace c = false ->
  contains needle hay = true -> whitespace_only hay = false.
Proof.
  intros -> Hc. induction hay as [|a t IH]; simpl.
  - discriminate.
  - destruct (Ascii.eqb c a) eqn:Heq.
    + apply Ascii.eqb_eq in Heq. subst a. rewrite Hc. reflexivity.
    + intros H. rewrite (IH H). apply andb_false_r.
Qed.

Lemma replicate_char_S n c :
  replicate_char (S n) c = String c (replicate_char n c).
Proof. reflexivity. Qed.

Lemma rstrip_replicate n c :
  isspace c = false -> rstrip (replicate_char n c) = replicate_char n c.
Proof.
  intros Hc. induction n as [|n IH]; [reflexivity|].
  rewrite replicate_char_S. cbn [rstrip]. rewrite IH.
  destruct n; [cbn; rewrite Hc|]; reflexivity.
Qed.

Lemma strip_replicate n c :
  isspace c = false -> strip (replicate_char n c) = replicate_char n c.
Proof.
  intros Hc. unfold strip.
  assert (Hl : lstrip (replicate_char n c) = replicate_char n c).
  { destruct n; [reflexivity|]. rewrite replicate_char_S. cbn [lstrip].
    rewrite Hc. reflexivity. }
  rewrite Hl. apply rstrip_replicate, Hc.
Qed.

Lemma len_replicate n c : len (replicate_char n c) = Z.of_nat n.
Proof.
  unfold len. f_equal. induction n as [|n IH]; [reflexivity|].
  rewrite replicate_char_S. cbn [String.length]. rewrite IH. reflexivity.
Qed.

End StringFacts.

(** ** Validation helpers *)

Section Validation.

Import Py Errors.

Lemma validate_question_spec q :
  validate_question q = true <-> 3 <= len (strip q) /\ len q <= 10000.
Proof.
  unfold validate_question.
  pose proof (strip_len_le q) as Hle.
  pose proof (truthy_len q) as Hq. pose proof (truthy_len (strip q)) as Hs.
  destruct (truthy q); destruct (truthy (strip q)); simpl;
    try (split; [discriminate | intros [? ?]]; destruct Hq, Hs;
         assert (true = true) by reflexivity; lia).
  all: destruct (len (strip q) <? 3) eqn:H3;
    [ apply Z.ltb_lt in H3; split; [discriminate | lia]
    | apply Z.ltb_ge in H3 ].
  all: destruct (len q >? 10000) eqn:Hmax;
    [ apply Z.gtb_lt in Hmax; split; [discriminate | lia]
    | split; [intros _ | reflexivity] ].
  all: pose proof (Zgt_cases (len q) 10000) as Hc; rewrite Hmax in Hc; lia.
Qed.

Lemma validate_model_dangerous model ch :
  In ch dangerous_chars -> contains ch model = true -> validate_model model = false.
Proof.
  intros Hin Hc. unfold validate_model.
  destruct (negb (truthy model) || negb (truthy (strip model))); [reflexivity|].
  assert (He : existsb (fun char => contains char model) dangerous_chars = true).
  { apply existsb_exists. exists ch. split; assumption. }
  rewrite He. reflexivity.
Qed.

(** C7: [validate_question] fails at length 2 and at length 10001 and
    passes at lengths 3 and 10000, the minimum being measured on the
    trimmed question and white-space-only questions always failing;
    [validate_model] fails on every model that contains a character
    of the denylist (the semicolon among them) and on white-space-only
    models; [validate_file_path] accepts the empty path and rejects
    every path that contains two consecutive dots. *)
Theorem validation_edge_cases :
  (forall q, len q = 2 -> validate_question q = false)
  /\ (forall q, len (strip q) < 3 -> validate_question q = false)
  /\ (forall q, len q = 10001 -> validate_question q = false)
  /\ (forall q, whitespace_only q = true -> validate_question q = false)
  /\ (forall q, len q = 3 -> strip q = q -> validate_question q = true)
  /\ (forall q, len q = 10000 -> 3 <= len (strip q) -> validate_question q = true)
  /\ (forall model, contains ";" model = true -> validate_model model = false)
  /\ (forall model ch, In ch dangerous_chars -> contains ch model = true ->
                       validate_model model = false)
  /\ (forall model, whitespace_only model = true -> validate_model model = false)
  /\ (forall exists_, validate_file_path exists_ EmptyString = true)
  /\ (forall exists_ p, contains ".." p = true -> validate_file_path exists_ p = false).
Proof.
  assert (Hfalse : forall q, ~ (3 <= len (strip q) /\ len q <= 10000) ->
                             validate_question q = false).
  { intros q Hn. destruct (validate_question q) eqn:Hv; [|reflexivity].
    apply validate_question_spec in Hv. contradiction. }
  repeat apply conj.
  - intros q Hq. apply Hfalse. pose proof (strip_len_le q). lia.
  - intros q Hq. apply Hfalse. lia.
  - intros q Hq. apply Hfalse. lia.
  - intros q Hq. apply Hfalse. rewrite (strip_whitespace q Hq). unfold len. simpl. lia.
  - intros q Hq Hs. apply validate_question_spec. rewrite Hs. lia.
  - intros q Hq Hs. apply validate_question_spec. lia.
  - intros model Hc. apply (validate_model_dangerous model ";"); [|exact Hc].
    unfold dangerous_chars. simpl. tauto.
  - intros model ch. apply validate_model_dangerous.
  - intros model Hw. unfold validate_model.
    rewrite (strip_whitespace model Hw). simpl. rewrite orb_true_r. reflexivity.
  - intros exists_. reflexivity.
  - intros exists_ p Hc. unfold validate_file_path.
    assert (Hw : whitespace_only p = false).
    { apply (contains_not_whitespace ".." "." "." p); auto. }
    rewrite (strip_not_whitespace p Hw).
    destruct p as [|a t]; [discriminate|].
    cbn [truthy negb orb]. rewrite Hc. reflexivity.
Qed.

Lemma validation_edge_cases_witness :
  validate_question "ab" = false
  /\ validate_question " a " = false
  /\ validate_question (replicate_char (Z.to_nat 10001) "a") = false
  /\ validate_question "   " = false
  /\ validate_question "abc" = true
  /\ validate_question (replicate_char (Z.to_nat 10000) "a") = true
  /\ validate_model "llama3;ls" = false
  /\ validate_model "a|b" = false
  /\ validate_model " " = false
  /\ validate_file_path (fun _ => true) "../secret" = false.
Proof.
  destruct validation_edge_cases
    as (H2 & Ht & Hmax & Hw & H3 & H10000 & Hsemi & Hdeny & Hwm & _ & Hdots).
  repeat apply conj.
  - apply H2. reflexivity.
  - apply Ht. reflexivity.
  - apply Hmax. vm_compute. reflexivity.
  - apply Hw. reflexivity.
  - apply H3; reflexivity.
  - apply H10000; vm_compute; [reflexivity | discriminate].
  - apply Hsemi. reflexivity.
  - apply (Hdeny "a|b" "|"); [simpl; tauto | reflexivity].
  - apply Hwm. reflexivity.
  - apply Hdots. reflexivity.
Defined.

End Validation.

(** ** Cache key *)

Section CacheKey.

Import OllamaCache.



End CacheKey.

(** ** Classification *)

Section Classification.

Import Py Errors.




End Classification.

(** ** Error statistics *)

Section Statistics.

Import Errors.

Lemma value_inj k k' : value k = value k' -> k = k'.
Proof. destruct k, k'; intros H; first [reflexivity | discriminate H]. Qed.

Lemma zero_stats_lookup k : zero_stats !! value k = Some 0.
Proof. destruct k; vm_compute; reflexivity. Qed.

Lemma count_zero log n k : count (mkErrorHandler log n zero_stats) k = 0.
Proof. unfold count. cbn [error_stats]. rewrite zero_stats_lookup. reflexivity. Qed.

Lemma stats_sum_zero log n : stats_sum (mkErrorHandler log n zero_stats) = 0.
Proof. unfold stats_sum. cbn [foldr ErrorType_members]. rewrite !count_zero. reflexivity. Qed.

Lemma count_insert log log' n n' (stats : gmap string Z) k0 v k :
count (mkErrorHandler log n (<[value k0 := v]> stats)) k
= if decide (k = k0) then v else count (mkErrorHandler log' n' stats) k.
Proof.
unfold count. cbn [error_stats]. case_decide as Hk.
- subst k. rewrite lookup_insert_eq. reflexivity.
- rewrite lookup_insert_ne; [reflexivity|].
  intros Hv. apply Hk. symmetry. apply value_inj, Hv.
Qed.

Lemma stats_sum_insert log n n' (stats : gmap string Z) k0 v :
stats_sum (mkErrorHandler log n (<[value k0 := v]> stats))
= stats_sum (mkErrorHandler log n' stats) - count (mkErrorHandler log n' stats) k0 + v.
Proof.
unfold stats_sum. cbn [foldr ErrorType_members].
rewrite !(count_insert log log n n').
destruct k0;
  repeat first [rewrite decide_True by reflexivity | rewrite decide_False by discriminate];
  lia.
Qed.

Lemma stats_ok_zero log : stats_ok (mkErrorHandler log 0 zero_stats).
Proof.
split.
- intros k. cbn [error_stats]. rewrite zero_stats_lookup. eauto.
- cbn [error_count]. rewrite stats_sum_zero. reflexivity.
Qed.

Lemma handle_error_step now self error :
stats_ok self ->
let k := error_type (as_ollama now error) in
exists msg self',
  handle_error now self error = (Return msg, self')
  /\ stats_ok self'
  /\ error_count self' = error_count self + 1
  /\ count self' k = count self k + 1
  /\ (forall k', k' <> k -> count self' k' = count self k').
Proof.
intros [Hkeys Hsum] k. unfold handle_error. cbn [error_stats error_count log_file].
fold k. destruct (Hkeys k) as [n Hn]. rewrite Hn.
destruct self as [log total stats]. cbn [error_stats error_count log_file] in *.
assert (Hk : count (mkErrorHandler log total stats) k = n).
{ unfold count. cbn [error_stats]. rewrite Hn. reflexivity. }
eexists _, _. split; [reflexivity|].
repeat apply conj.
- intros k'. cbn [error_stats].
  destruct (decide (value k = value k')) as [->|Hne].
  + rewrite lookup_insert_eq. eauto.
  + rewrite lookup_insert_ne by exact Hne. apply Hkeys.
- cbn [error_count]. rewrite (stats_sum_insert log (total + 1) total). lia.
- reflexivity.
- rewrite (count_insert log log (total + 1) total).
  rewrite decide_True by reflexivity. lia.
- intros k' Hne. rewrite (count_insert log log (total + 1) total).
  rewrite decide_False by exact Hne. reflexivity.
Qed.

(** C9: the total error count equals the sum of the per-kind counts
    over the ten kinds.  This holds of a new handler, where all counts
    are zero; every [handle_error] call keeps it, returns normally,
    adds one to the total and one to the count of exactly one kind,
    leaving the other counts as they were; and [clear_stats] restores
    it by setting the total and every count to zero. *)
Theorem stats_total_invariant :
(forall log,
    stats_ok (new_handler log)
    /\ error_count (new_handler log) = 0
    /\ forall k, count (new_handler log) k = 0)
/\ (forall now self error,
       stats_ok self ->
       exists msg self' k,
         handle_error now self error = (Return msg, self')
         /\ stats_ok self'
         /\ error_count self' = error_count self + 1
         /\ count self' k = count self k + 1
         /\ (forall k', k' <> k -> count self' k' = count self k'))
/\ (forall self,
       stats_ok (clear_stats self)
       /\ error_count (clear_stats self) = 0
       /\ forall k, count (clear_stats self) k = 0).
Proof.
split; [|split].
- intros log. split; [apply stats_ok_zero|].
  split; [reflexivity | intros k; apply count_zero].
- intros now self error Hok.
  destruct (handle_error_step now self error Hok) as (msg & self' & H).
  exists msg, self', (error_type (as_ollama now error)). exact H.
- intros self. split; [apply stats_ok_zero|].
  split; [reflexivity | intros k; apply count_zero].
Qed.

Lemma stats_total_invariant_witness :
exists msg self' k,
  handle_error 0 (new_handler "logs/errors.log") (builtin "ValueError" "bad") = (Return msg, self')
  /\ stats_ok self'
  /\ error_count self' = error_count (new_handler "logs/errors.log") + 1
  /\ count self' k = count (new_handler "logs/errors.log") k + 1
  /\ (forall k', k' <> k -> count self' k' = count (new_handler "logs/errors.log") k').
Proof.
destruct stats_total_invariant as (Hnew & Hstep & _).
apply Hstep. apply (Hnew "logs/errors.log").
Defined.

End Statistics.

(** ** Retry policy *)

Section RetryFacts.

Import Errors.

Context {W V : Type}.
Variable operation : W -> result V * W.


Lemma waits_failed delay l :
  waits (flat_map (failed_attempt delay) l) = map (backoff_wait delay) l.
Proof. induction l as [|a l IH]; [reflexivity|]. cbn. f_equal. exact IH. Qed.

Lemma waits_app tr tr' : waits (tr ++ tr') = (waits tr ++ waits tr')%list.
Proof. unfold waits. apply omap_app. Qed.

Lemma attempts_failed delay l tr :
  attempts_made (flat_map (failed_attempt delay) l ++ tr)%list
  = Z.of_nat (length l) + attempts_made tr.
Proof.
  unfold attempts_made. induction l as [|a l IH]; [reflexivity|].
  cbn [flat_map failed_attempt app List.filter is_attempt length].
  rewrite Nat2Z.inj_succ, IH. cbn [length]. lia.
Qed.



Lemma range_seq (K : Z) : Py.range K = map Z.of_nat (seq 0 (Z.to_nat K)).
Proof. reflexivity. Qed.



(** C10: with a non-positive [max_retries] the operation is never
    called (no event, the world unchanged) and the final [raise] finds
    no recorded failure: what is raised is the interpreter's
    [TypeError], not an [OllamaError]. *)
Theorem retry_without_attempts (K : Z) (delay : Q) (w : W) :
  K <= 0 ->
  exists e,
    retry_operation operation K delay w = (Raise e, w, [])
    /\ attempts_made [] = 0
    /\ e = builtin "TypeError" "exceptions must derive from BaseException"
    /\ isinstance_OllamaError e = false.
Proof.
  intros HK. eexists. split; [|repeat split].
  unfold retry_operation, Py.range.
  replace (Z.to_nat K) with 0%nat by lia. reflexivity.
Qed.

(** Retrying goes by class, not by kind: a raw deadline failure, which
    the classifier would make a [TIMEOUT], is passed on at once. *)
Lemma raw_failure_not_retried (K : Z) (delay : Q) (w : W) (e : PyException) :
  1 <= K ->
  outcome operation 0 w = Raise (Raw e) ->
  retry_operation operation K delay w
  = (Raise (Raw e), world_after operation 1 w, [Attempt]).
Proof.
  intros HK He. unfold retry_operation. rewrite range_seq.
  replace (Z.to_nat K) with (S (Z.to_nat (K - 1))) by lia.
  cbn [seq map retry_loop].
  unfold outcome in He. cbn [world_after] in He.
  destruct (operation w) as [r w'] eqn:Hop. cbn [fst] in He. subst r.
  cbn [retryable world_after]. rewrite Hop. reflexivity.
Qed.


End RetryFacts.

Section RetryWitnesses.

Import Errors.


Lemma retry_without_attempts_witness :
  exists e,
    retry_operation flaky_operation 0 1%Q 0%nat = (Raise e, 0%nat, [])
    /\ attempts_made [] = 0
    /\ e = builtin "TypeError" "exceptions must derive from BaseException"
    /\ isinstance_OllamaError e = false.
Proof. apply (retry_without_attempts flaky_operation 0 1%Q 0%nat). lia. Defined.


End RetryWitnesses.

(** ** Response cache *)

Section CacheFacts.

Import Errors OllamaCache.

Variable isoformat : Z -> string.
Variable fromisoformat : string -> parsed_datetime.

(** The record written by [set]. *)
Lemma set_lookup self now fs q r c m :
  let cache_key := _generate_cache_key q c m in
  let cache_file := _get_cache_file_path self cache_key in
  (forall f, fs !! cache_file = Some f -> openable f = true) ->
  set isoformat self now fs q r c m !! cache_file
  = Some (mkFile (Json (JObject [("question", JString q);
                                 ("response", JString r);
                                 ("context", JString c);
                                 ("model", JString m);
                                 ("timestamp", JString (isoformat now));
                                 ("cache_key", JString cache_key)])) true).
Proof.
  intros cache_key cache_file Hopen. unfold set. fold cache_key. fold cache_file.
  destruct (fs !! cache_file) as [f|] eqn:Hf.
  - rewrite (Hopen f eq_refl). apply lookup_insert_eq.
  - apply lookup_insert_eq.
Qed.

(** [get] on an entry that is a readable JSON object with a naive
    timestamp. *)
Lemma get_entry self now fs q c m f cache_data s t :
  let cache_file := _get_cache_file_path self (_generate_cache_key q c m) in
  fs !! cache_file = Some f ->
  openable f = true ->
  contents f = Json cache_data ->
  getitem cache_data "timestamp" = inr (JString s) ->
  fromisoformat s = Naive t ->
  get fromisoformat self now fs q c m
  = if now - t >? timedelta_seconds (max_age_seconds self)
    then (Return None, delete cache_file fs)
    else match getitem cache_data "response" with
         | inr response => (Return (Some response), fs)
         | inl err =>
             if caught err then (Return None, delete cache_file fs)
             else (Raise (to_exc err), fs)
         end.
Proof.
  intros cache_file Hf Hopen Hjson Hts Hiso.
  unfold get, try_get. fold cache_file.
  rewrite Hf, Hopen, Hjson, Hts, Hiso. cbn [negb].
  destruct (now - t >? timedelta_seconds (max_age_seconds self)); [reflexivity|].
  destruct (getitem cache_data "response"); reflexivity.
Qed.



(** The corruptions the handler of [get] does cover: text that is not
    JSON, an object without a timestamp, a file that cannot be opened. *)
Lemma get_handled_corruption self now fs q c m f :
  let cache_file := _get_cache_file_path self (_generate_cache_key q c m) in
  fs !! cache_file = Some f ->
  openable f = false
  \/ contents f = NotJson
  \/ (exists members, contents f = Json (JObject members)
                      /\ dict_get "timestamp" members = None) ->
  get fromisoformat self now fs q c m = (Return None, delete cache_file fs).
Proof.
  intros cache_file Hf Hbad. unfold get, try_get. fold cache_file. rewrite Hf.
  destruct (openable f) eqn:Hopen; cbn [negb]; [|reflexivity].
  destruct Hbad as [Hbad | [Hbad | (members & Hbad & Hts)]].
  - discriminate.
  - rewrite Hbad. reflexivity.
  - rewrite Hbad. cbn [getitem]. rewrite Hts. reflexivity.
Qed.

(** C2 fails on the code: a stored payload that is valid JSON but not
    an object, here the empty array, has no required field, and [get]
    neither returns [None] nor deletes the entry: the [TypeError] of
    the subscript is not among the exceptions the handler catches and
    reaches the caller, the file staying on disk.  The same holds of a
    file that is not UTF-8 text. *)
Theorem get_raises_on_malformed self now fs q c m :
  let cache_file := _get_cache_file_path self (_generate_cache_key q c m) in
  let fs1 := <[cache_file := mkFile (Json (JArray [])) true]> fs in
  let fs2 := <[cache_file := mkFile NotUtf8 true]> fs in
  get fromisoformat self now fs1 q c m
  = (Raise (builtin "TypeError" "list indices must be integers or slices, not str"), fs1)
  /\ is_Some (fs1 !! cache_file)
  /\ get fromisoformat self now fs2 q c m
     = (Raise (builtin "UnicodeDecodeError" "invalid start byte"), fs2).
Proof.
  intros cache_file fs1 fs2. unfold get, try_get. fold cache_file.
  unfold fs1, fs2. rewrite !lookup_insert_eq. cbn.
  split; [reflexivity|]. split; [eauto | reflexivity].
Qed.

End CacheFacts.

Section CacheWitnesses.

Import Errors OllamaCache.



End CacheWitnesses.

(** * Further properties *)

(** ** Classification and the handler *)

Section HandlerFacts.

Import Errors.

Lemma classifier_kinds_aux (now : Z) (error : exc) :
  error_type (_classify_error now error) = TIMEOUT
  \/ error_type (_classify_error now error) = CONNECTION
  \/ error_type (_classify_error now error) = VALIDATION
  \/ error_type (_classify_error now error) = UNKNOWN.
Proof.
  unfold _classify_error.
  destruct (isinstance is_asyncio_TimeoutError error);
    [|destruct (isinstance is_aiohttp_ClientError error);
      [destruct (Py.contains "timeout" (Py.lower (str error)));
       [|destruct (Py.contains "connection" (Py.lower (str error)))]
      |destruct (isinstance is_FileNotFoundError error);
       [|destruct (isinstance is_PermissionError error)]]];
    cbn; tauto.
Qed.

(** X1: whatever it is given, the classifier answers with one of four
    kinds, [TIMEOUT], [CONNECTION], [VALIDATION] or [UNKNOWN], stamped
    with the time of the call; and the error it builds is one that
    [retry_operation] retries exactly when that kind is [CONNECTION]
    or [TIMEOUT]. *)
Theorem classifier_kinds (now : Z) (error : exc) :
  let r := _classify_error now error in
  (error_type r = TIMEOUT \/ error_type r = CONNECTION
   \/ error_type r = VALIDATION \/ error_type r = UNKNOWN)
  /\ (retryable (Ollama r) = true
      <-> error_type r = CONNECTION \/ error_type r = TIMEOUT)
  /\ timestamp r = now.
Proof.
  unfold _classify_error.
  destruct (isinstance is_asyncio_TimeoutError error);
    [|destruct (isinstance is_aiohttp_ClientError error);
      [destruct (Py.contains "timeout" (Py.lower (str error)));
       [|destruct (Py.contains "connection" (Py.lower (str error)))]
      |destruct (isinstance is_FileNotFoundError error);
       [|destruct (isinstance is_PermissionError error)]]];
    cbn; (split; [tauto|]); (split; [|reflexivity]);
    split; intros H; try discriminate H; try tauto;
    destruct H as [H|H]; discriminate H.
Qed.

(** The counts of the kinds other than the one handled stay. *)
Lemma handle_error_kind now self error self' r :
  stats_ok self ->
  handle_error now self error = (r, self') ->
  r = Return (_get_user_message (as_ollama now error))
  /\ stats_ok self'
  /\ error_count self' = error_count self + 1
  /\ count self' (error_type (as_ollama now error))
     = count self (error_type (as_ollama now error)) + 1
  /\ (forall k, k <> error_type (as_ollama now error) -> count self' k = count self k).
Proof.
  intros Hok Hrun.
  destruct (handle_error_step now self error Hok) as (msg & s1 & Hs & H).
  cbv zeta in H. rewrite Hs in Hrun. inversion Hrun; subst.
  split; [|exact H].
  unfold handle_error in Hs. cbn [error_stats error_count log_file] in Hs.
  destruct Hok as [Hkeys _].
  destruct (Hkeys (error_type (as_ollama now error))) as [n Hn].
  rewrite Hn in Hs. inversion Hs. reflexivity.
Qed.

(** X2: an [OllamaError] given to [handle_error] is taken as it is. Its
    own kind is the one counted and the one whose message is returned,
    whereas the classifier, asked directly, would file the same error
    under [UNKNOWN]. *)
Theorem handle_error_keeps_kind (now : Z) (self : ErrorHandler) (e : OllamaError) :
  stats_ok self ->
  exists self',
    handle_error now self (Ollama e) = (Return (_get_user_message e), self')
    /\ count self' (error_type e) = count self (error_type e) + 1
    /\ (forall k, k <> error_type e -> count self' k = count self k)
    /\ error_type (_classify_error now (Ollama e)) = UNKNOWN.
Proof.
  intros Hok.
  destruct (handle_error now self (Ollama e)) as [r self'] eqn:Hrun.
  destruct (handle_error_kind now self (Ollama e) self' r Hok Hrun)
    as (Hr & _ & _ & Hk & Hothers).
  exists self'. subst r. cbn [as_ollama] in *.
  split; [reflexivity|]. split; [exact Hk|]. split; [exact Hothers | reflexivity].
Qed.

(** X3: on a handler whose statistics are in order, a run of calls of
    [handle_error] never raises: it returns one message per error,
    adds the number of errors to the total and keeps the total equal
    to the sum of the counts. *)
Theorem handle_errors_total (self : ErrorHandler) (errors : list (Z * exc)) :
  stats_ok self ->
  exists msgs self',
    handle_errors self errors = (Return msgs, self')
    /\ length msgs = length errors
    /\ stats_ok self'
    /\ error_count self' = error_count self + Z.of_nat (length errors)
    /\ stats_sum self' = stats_sum self + Z.of_nat (length errors).
Proof.
  revert self. induction errors as [|[now error] rest IH]; intros self Hok.
  - exists [], self. cbn [handle_errors length].
    repeat (split; [first [reflexivity | assumption | lia]|]). lia.
  - cbn [handle_errors].
    destruct (handle_error now self error) as [r s1] eqn:Hrun.
    destruct (handle_error_kind now self error s1 r Hok Hrun) as (Hr & Hok1 & Hc & _).
    subst r.
    destruct (IH s1 Hok1) as (msgs & s2 & Hrest & Hlen & Hok2 & Hc2 & Hs2).
    rewrite Hrest. eexists _, s2. split; [reflexivity|].
    cbn [length]. split; [congruence|]. split; [exact Hok2|].
    destruct Hok as [_ Hsum]. destruct Hok1 as [_ Hsum1].
    split; lia.
Qed.

(** X4: raw exceptions only ever feed four counters.  After any run
    of [handle_error] on exceptions from outside the family, the count
    of every kind other than [TIMEOUT], [CONNECTION], [VALIDATION] and
    [UNKNOWN] is what it was; [NETWORK] among them. *)
Theorem raw_errors_leave_counts (self : ErrorHandler) (errors : list (Z * exc)) :
  stats_ok self ->
  Forall (fun ne => isinstance_OllamaError (snd ne) = false) errors ->
  forall k,
    k <> TIMEOUT -> k <> CONNECTION -> k <> VALIDATION -> k <> UNKNOWN ->
    count (snd (handle_errors self errors)) k = count self k.
Proof.
  intros Hok Hraw k Ht Hc Hv Hu. revert self Hok.
  induction Hraw as [|[now error] rest Hhead _ IH]; intros self Hok; [reflexivity|].
  cbn [handle_errors].
  destruct (handle_error now self error) as [r s1] eqn:Hrun.
  destruct (handle_error_kind now self error s1 r Hok Hrun) as (Hr & Hok1 & _ & _ & Hothers).
  subst r. specialize (IH s1 Hok1).
  destruct (handle_errors s1 rest) as [[msgs|e] s2]; cbn [snd] in *;
    rewrite IH; apply Hothers;
    (destruct error as [p|o]; [|discriminate Hhead]);
    cbn [as_ollama];
    destruct (classifier_kinds_aux now (Raw p)) as [H|[H|[H|H]]];
    rewrite H; assumption.
Qed.

End HandlerFacts.

Section HandlerWitnesses.

Import Errors.

Lemma handle_error_keeps_kind_witness :
  exists self',
    handle_error 0 (new_handler "logs/errors.log") (Ollama missing_file_error)
    = (Return (_get_user_message missing_file_error), self')
    /\ count self' (error_type missing_file_error)
       = count (new_handler "logs/errors.log") (error_type missing_file_error) + 1
    /\ (forall k, k <> error_type missing_file_error ->
                  count self' k = count (new_handler "logs/errors.log") k)
    /\ error_type (_classify_error 0 (Ollama missing_file_error)) = UNKNOWN.
Proof.
  apply (handle_error_keeps_kind 0 (new_handler "logs/errors.log") missing_file_error).
  apply stats_ok_zero.
Defined.

Lemma handle_errors_total_witness :
  exists msgs self',
    handle_errors (new_handler "logs/errors.log") [(0, payload_error); (1, timed_out)]
    = (Return msgs, self')
    /\ length msgs = length [(0, payload_error); (1, timed_out)]
    /\ stats_ok self'
    /\ error_count self'
       = error_count (new_handler "logs/errors.log")
         + Z.of_nat (length [(0, payload_error); (1, timed_out)])
    /\ stats_sum self'
       = stats_sum (new_handler "logs/errors.log")
         + Z.of_nat (length [(0, payload_error); (1, timed_out)]).
Proof.
  apply (handle_errors_total (new_handler "logs/errors.log")).
  apply stats_ok_zero.
Defined.

Lemma raw_errors_leave_counts_witness :
  count (snd (handle_errors (new_handler "logs/errors.log")
                            [(0, payload_error); (1, builtin "ValueError" "bad")]))
        NETWORK
  = count (new_handler "logs/errors.log") NETWORK.
Proof.
  apply (raw_errors_leave_counts (new_handler "logs/errors.log")).
  - apply stats_ok_zero.
  - repeat constructor.
  - discriminate.
  - discriminate.
  - discriminate.
  - discriminate.
Defined.

End HandlerWitnesses.

(** ** The decorator *)

Section DecoratorFacts.

Import Errors.

Context {W V : Type}.
Variable is_Exception : PyException -> bool.
Variable func : W -> result V * W.

(** X5: a function under [error_handler], with the statistics in
    order.  A value it returns comes back unchanged, nothing is counted
    or printed.  A failure that is an [Exception] never reaches the
    caller: the wrapper returns [None], counts one error and prints the
    one message of the failure's kind.  Any other failure passes
    through, uncounted.  The function is called once in each case. *)
Theorem error_handler_absorbs (now : Z) (handler : ErrorHandler) (w : W) :
  stats_ok handler ->
  (forall v w', func w = (Return v, w') ->
                error_handler is_Exception func now handler w
                = (Return (Some v), handler, w', []))
  /\ (forall e w', func w = (Raise e, w') -> except_Exception is_Exception e = true ->
                   exists handler',
                     error_handler is_Exception func now handler w
                     = (Return None, handler', w', [_get_user_message (as_ollama now e)])
                     /\ stats_ok handler'
                     /\ error_count handler' = error_count handler + 1)
  /\ (forall e w', func w = (Raise e, w') -> except_Exception is_Exception e = false ->
                   error_handler is_Exception func now handler w
                   = (Raise e, handler, w', [])).
Proof.
  intros Hok. unfold error_handler. split; [|split].
  - intros v w' Hf. rewrite Hf. reflexivity.
  - intros e w' Hf He. rewrite Hf, He.
    destruct (handle_error now handler e) as [r handler'] eqn:Hrun.
    destruct (handle_error_kind now handler e handler' r Hok Hrun)
      as (Hr & Hok' & Hc & _).
    subst r. exists handler'. split; [reflexivity|]. split; assumption.
  - intros e w' Hf He. rewrite Hf, He. reflexivity.
Qed.

End DecoratorFacts.

Section DecoratorWitness.

Import Errors.

Lemma error_handler_absorbs_witness :
  error_handler (fun _ => true) flaky_operation 0 (new_handler "logs/errors.log") 2%nat
  = (Return (Some "respuesta"), new_handler "logs/errors.log", 3%nat, [])
  /\ (exists handler',
         error_handler (fun _ => true) invalid_operation 0 (new_handler "logs/errors.log") 0%nat
         = (Return None, handler', 1%nat, [_get_user_message (as_ollama 0 missing_file)])
         /\ stats_ok handler'
         /\ error_count handler' = error_count (new_handler "logs/errors.log") + 1)
  /\ error_handler (fun _ => false) (fun calls : nat =>
                                       (@Raise string (builtin "KeyboardInterrupt" EmptyString),
                                        S calls))
                   0 (new_handler "logs/errors.log") 0%nat
     = (Raise (builtin "KeyboardInterrupt" EmptyString), new_handler "logs/errors.log",
        1%nat, []).
Proof.
  split; [|split].
  - apply (error_handler_absorbs (fun _ => true) flaky_operation 0
                                 (new_handler "logs/errors.log") 2%nat);
      [apply stats_ok_zero | reflexivity].
  - apply (error_handler_absorbs (fun _ => true) invalid_operation 0
                                 (new_handler "logs/errors.log") 0%nat);
      [apply stats_ok_zero | reflexivity | reflexivity].
  - eapply (error_handler_absorbs (fun _ => false) _ 0
                                  (new_handler "logs/errors.log") 0%nat);
      [apply stats_ok_zero | reflexivity | reflexivity].
Defined.

End DecoratorWitness.

(** ** The shape of every retry run *)

Section RetryShape.

Import Errors.

Context {W V : Type}.
Variable operation : W -> result V * W.

Lemma outcome_0 w : outcome operation 0 w = fst (operation w).
Proof. reflexivity. Qed.

Lemma shift_world w w' r :
  operation w = (r, w') ->
  (forall n, outcome operation n w' = outcome operation (S n) w)
  /\ (forall n, world_after operation n w' = world_after operation (S n) w).
Proof.
  intros Hop. split; intros n; unfold outcome; cbn [world_after]; rewrite Hop; reflexivity.
Qed.

(** The loop with [n + 1] attempts left, started at attempt [a]: it
    stops at the first call [j] that does not fail retryably, or at the
    last one. *)
Lemma retry_loop_shape (K : Z) (delay : Q) :
  forall (n a : nat) (last : option exc) (w : W),
    Z.of_nat (a + S n) = K ->
    exists j,
      (j <= n)%nat
      /\ retry_loop operation (map Z.of_nat (seq a (S n))) K delay last w
         = (outcome operation j w, world_after operation (S j) w,
            (flat_map (failed_attempt delay) (map Z.of_nat (seq a j)) ++ [Attempt])%list)
      /\ (forall i, (i < j)%nat -> retryable_failure (outcome operation i w) = true)
      /\ (j = n \/ retryable_failure (outcome operation j w) = false).
Proof.
  induction n as [|n IH]; intros a last w HK.
  - exists 0%nat. split; [lia|].
    cbn [seq map retry_loop flat_map app world_after]. rewrite outcome_0.
    destruct (operation w) as [[v|e] w'] eqn:Hop; cbn [fst snd].
    + split; [reflexivity|]. split; [intros i Hi; lia | left; reflexivity].
    + destruct (retryable e) eqn:Hre.
      * assert (Hlt : (Z.of_nat a <? K - 1) = false) by (apply Z.ltb_ge; lia).
        rewrite Hlt. split; [reflexivity|].
        split; [intros i Hi; lia | left; reflexivity].
      * split; [reflexivity|]. split; [intros i Hi; lia | left; reflexivity].
  - change (seq a (S (S n))) with (a :: seq (S a) (S n)). cbn [map retry_loop].
    destruct (operation w) as [[v|e] w'] eqn:Hop.
    + exists 0%nat. split; [lia|]. rewrite outcome_0, Hop.
      cbn [fst seq map flat_map app world_after]. rewrite Hop.
      split; [reflexivity|]. split; [intros i Hi; lia | right; reflexivity].
    + destruct (retryable e) eqn:Hre.
      * assert (Hlt : (Z.of_nat a <? K - 1) = true) by (apply Z.ltb_lt; lia).
        rewrite Hlt.
        destruct (shift_world w w' _ Hop) as [Hout Hworld].
        destruct (IH (S a) (Some e) w') as (j & Hj & Hloop & Hbefore & Hstop); [lia|].
        exists (S j). split; [lia|]. rewrite Hloop.
        rewrite !Hout, !Hworld. split; [reflexivity|]. split.
        -- intros [|i] Hi.
           ++ rewrite outcome_0, Hop. exact Hre.
           ++ rewrite <- Hout. apply Hbefore. lia.
        -- destruct Hstop as [->|Hstop]; [left; reflexivity | right].
           rewrite <- Hout. exact Hstop.
      * exists 0%nat. split; [lia|]. rewrite outcome_0, Hop.
        cbn [fst seq map flat_map app world_after]. rewrite Hop.
        split; [reflexivity|]. split; [intros i Hi; lia | right; exact Hre].
Qed.

Lemma retry_operation_shape (K : Z) (delay : Q) (w : W) :
  1 <= K ->
  exists j,
    Z.of_nat j < K
    /\ retry_operation operation K delay w
       = (outcome operation j w, world_after operation (S j) w,
          (flat_map (failed_attempt delay) (Py.range (Z.of_nat j)) ++ [Attempt])%list)
    /\ (forall i, (i < j)%nat -> retryable_failure (outcome operation i w) = true)
    /\ (Z.of_nat j = K - 1 \/ retryable_failure (outcome operation j w) = false).
Proof.
  intros HK.
  destruct (retry_loop_shape K delay (Z.to_nat (K - 1)) 0 None w)
    as (j & Hj & Hloop & Hbefore & Hstop); [lia|].
  exists j. split; [lia|]. split; [|split; [exact Hbefore|]].
  - unfold retry_operation, Py.range.
    replace (Z.to_nat K) with (S (Z.to_nat (K - 1))) by lia.
    rewrite Hloop, Nat2Z.id. reflexivity.
  - destruct Hstop as [->|Hstop]; [left; lia | right; exact Hstop].
Qed.


(** X7: with [max_retries = 1] the operation is called once and its
    outcome, a value or any failure, is passed on as it is, without
    warning or sleep. *)
Theorem retry_once_is_a_call (delay : Q) (w : W) :
  retry_operation operation 1 delay w
  = (fst (operation w), snd (operation w), [Attempt]).
Proof.
  unfold retry_operation. change (Py.range 1) with [0]. cbn [retry_loop].
  destruct (operation w) as [[v|e] w']; cbn [fst snd]; [reflexivity|].
  destruct (retryable e); reflexivity.
Qed.

(** X8: for every operation and every [max_retries], positive or
    not, the operation is called at most [max(0, max_retries)] times
    and the run sleeps once between two successive calls, never before
    the first call or after the last. *)
Theorem retry_attempts_bounded (K : Z) (delay : Q) (w : W) :
  let tr := snd (retry_operation operation K delay w) in
  0 <= attempts_made tr <= Z.max 0 K
  /\ Z.of_nat (length (waits tr)) = Z.max 0 (attempts_made tr - 1)
  /\ (1 <= K -> 1 <= attempts_made tr).
Proof.
  cbv zeta. destruct (Z_le_gt_dec 1 K) as [HK|HK].
  - destruct (retry_operation_shape K delay w HK) as (j & Hj & Hrun & _).
    rewrite Hrun. cbn [snd].
    rewrite attempts_failed, waits_app, waits_failed, app_nil_r, length_map.
    change (attempts_made [Attempt]) with 1.
    unfold Py.range. rewrite length_map, length_seq, Nat2Z.id.
    rewrite (Z.max_r 0 K), (Z.max_r 0 (Z.of_nat j + 1 - 1)) by lia. lia.
  - unfold retry_operation, Py.range.
    replace (Z.to_nat K) with 0%nat by lia.
    cbn [seq map retry_loop snd]. change (attempts_made []) with 0.
    cbn [waits omap length]. rewrite (Z.max_l 0 K) by lia. cbn. lia.
Qed.

End RetryShape.

(** ** The time spent sleeping *)

Section RetryWaits.

Import Errors.



Context {W V : Type}.
Variable operation : W -> result V * W.


End RetryWaits.

Section RetryShapeWitnesses.

Import Errors.


Lemma retry_attempts_bounded_witness :
  0 <= attempts_made (snd (retry_operation failing_operation 3 1%Q 0%nat)) <= Z.max 0 3
  /\ 1 <= attempts_made (snd (retry_operation failing_operation 3 1%Q 0%nat)).
Proof.
  destruct (retry_attempts_bounded failing_operation 3 1%Q 0%nat) as (Hb & _ & Hone).
  split; [exact Hb | apply Hone; lia].
Defined.


End RetryShapeWitnesses.

(** ** What the validators accept *)

Section ValidationMore.

Import Py Errors.

Lemma truthy_strip s : truthy (strip s) = negb (whitespace_only s).
Proof.
  destruct (whitespace_only s) eqn:Hw.
  - rewrite (strip_whitespace s Hw). reflexivity.
  - apply strip_not_whitespace, Hw.
Qed.

Lemma blank_test s :
  negb (truthy s) || negb (truthy (strip s)) = whitespace_only s.
Proof.
  rewrite truthy_strip, negb_involutive.
  destruct s as [|c t]; [reflexivity|]. reflexivity.
Qed.

Lemma rstrip_head c t :
  isspace c = false -> exists t', rstrip (String c t) = String c t'.
Proof.
  intros Hc. cbn [rstrip]. destruct (rstrip t) as [|c' t'].
  - rewrite Hc. eauto.
  - eauto.
Qed.

Lemma rstrip_idempotent s : rstrip (rstrip s) = rstrip s.
Proof.
  induction s as [|c t IH]; [reflexivity|].
  cbn [rstrip]. destruct (rstrip t) as [|c' t'] eqn:Ht.
  - destruct (isspace c) eqn:Hc; [reflexivity|]. cbn [rstrip]. rewrite Hc. reflexivity.
  - cbn [rstrip]. cbn [rstrip] in IH. rewrite IH. reflexivity.
Qed.

Lemma lstrip_head s :
  lstrip s = EmptyString \/ exists c t, lstrip s = String c t /\ isspace c = false.
Proof.
  induction s as [|c t IH]; [left; reflexivity|].
  cbn [lstrip]. destruct (isspace c) eqn:Hc; [exact IH|]. right. eauto.
Qed.

Lemma strip_idempotent s : strip (strip s) = strip s.
Proof.
  unfold strip at 2 3. destruct (lstrip_head s) as [He|(c & t & He & Hc)]; rewrite He.
  - reflexivity.
  - destruct (rstrip_head c t Hc) as [t' Ht']. unfold strip.
    rewrite Ht'. cbn [lstrip]. rewrite Hc, <- Ht'. apply rstrip_idempotent.
Qed.

(** X10: [validate_model] accepts exactly the names that are not blank
    and hold none of the eight characters of its denylist; no other
    character, a space or a control character inside the name
    included, is looked at. *)
Theorem validate_model_accepts (model : string) :
  validate_model model = true
  <-> whitespace_only model = false
      /\ forall ch, In ch dangerous_chars -> contains ch model = false.
Proof.
  unfold validate_model. rewrite blank_test.
  destruct (whitespace_only model); [split; [discriminate | intros [H _]; discriminate H]|].
  destruct (existsb (fun char => contains char model) dangerous_chars) eqn:Hex.
  - split; [discriminate|]. intros [_ Hall].
    apply existsb_exists in Hex. destruct Hex as (ch & Hin & Hch).
    rewrite (Hall ch Hin) in Hch. discriminate Hch.
  - split; [intros _ | reflexivity]. split; [reflexivity|].
    intros ch Hin. destruct (contains ch model) eqn:Hch; [|reflexivity].
    assert (Ht : existsb (fun char => contains char model) dangerous_chars = true).
    { apply existsb_exists. exists ch. split; assumption. }
    rewrite Ht in Hex. discriminate Hex.
Qed.

(** X11: [validate_file_path] accepts a blank path without looking at
    the file system, and any other path exactly when it holds no two
    consecutive dots anywhere (a name such as [a..b] is refused too),
    does not begin with a slash, and exists. *)
Theorem validate_file_path_accepts (exists_ : string -> bool) (file_path : string) :
  validate_file_path exists_ file_path = true
  <-> whitespace_only file_path = true
      \/ (contains ".." file_path = false
          /\ startswith "/" file_path = false
          /\ exists_ file_path = true).
Proof.
  unfold validate_file_path. rewrite blank_test.
  destruct (whitespace_only file_path); [split; [left; reflexivity | reflexivity]|].
  destruct (contains ".." file_path); cbn [orb].
  - split; [discriminate | intros [H|(H & _)]; discriminate H].
  - destruct (startswith "/" file_path).
    + split; [discriminate | intros [H|(_ & H & _)]; discriminate H].
    + destruct (exists_ file_path); cbn [negb].
      * split; [intros _; right; repeat split | reflexivity].
      * split; [discriminate | intros [H|(_ & _ & H)]; discriminate H].
Qed.

Example dotted_name_refused : validate_file_path (fun _ => true) "notes..txt" = false.
Proof. reflexivity. Qed.

(** X12: trimming a question never turns an accepted question into a
    refused one, while padding can: the upper limit counts the white
    space around the question, the lower limit does not. *)
Theorem validate_question_trimmed :
  (forall q, validate_question q = true -> validate_question (strip q) = true)
  /\ (exists q, validate_question (strip q) = true /\ validate_question q = false).
Proof.
  split.
  - intros q Hq. apply validate_question_spec in Hq. apply validate_question_spec.
    rewrite strip_idempotent. pose proof (strip_len_le q). lia.
  - exists (replicate_char (Z.to_nat 9999) "a" ++ "  ")%string.
    split; vm_compute; reflexivity.
Qed.

Lemma validate_question_trimmed_witness :
  validate_question (strip " como estas ") = true.
Proof.
  destruct validate_question_trimmed as [Htrim _]. apply Htrim. reflexivity.
Defined.

End ValidationMore.

Section ValidationMoreWitnesses.

Import Py Errors.

Lemma validate_model_accepts_witness : validate_model "codellama:7b-instruct" = true.
Proof.
  apply validate_model_accepts. split; [reflexivity|].
  intros ch Hin. cbn [In dangerous_chars] in Hin.
  repeat (destruct Hin as [<-|Hin]; [reflexivity|]). destruct Hin.
Defined.

Lemma validate_file_path_accepts_witness :
  validate_file_path (fun _ => true) "src/main.py" = true.
Proof.
  apply validate_file_path_accepts. right. repeat split.
Defined.

End ValidationMoreWitnesses.

(** ** What [get] and [set] touch *)

Section CacheFrame.

Import Errors OllamaCache.

Variable isoformat : Z -> string.
Variable fromisoformat : string -> parsed_datetime.

Lemma append_cons (x : ascii) (a b : string) :
  (String x a ++ b)%string = String x (a ++ b)%string.
Proof. reflexivity. Qed.


Lemma append_length (a b : string) :
  String.length (a ++ b) = (String.length a + String.length b)%nat.
Proof.
  induction a as [|x a IH]; [reflexivity|].
  rewrite append_cons. cbn [String.length]. rewrite IH. reflexivity.
Qed.

Lemma append_inj_l (p a b : string) : (p ++ a = p ++ b)%string -> a = b.
Proof.
  induction p as [|x p IH]; [auto|].
  rewrite !append_cons. intros H. inversion H. auto.
Qed.

Lemma append_inj_r (s a b : string) : (a ++ s = b ++ s)%string -> a = b.
Proof.
  revert b. induction a as [|x a IH]; intros [|y b] H.
  - reflexivity.
  - apply (f_equal String.length) in H. rewrite !append_length in H.
    cbn [String.length] in H. lia.
  - apply (f_equal String.length) in H. rewrite !append_length in H.
    cbn [String.length] in H. lia.
  - rewrite !append_cons in H. inversion H. f_equal. auto.
Qed.

(** Distinct keys live in distinct files. *)
Lemma cache_file_inj self k k' :
  _get_cache_file_path self k = _get_cache_file_path self k' -> k = k'.
Proof.
  unfold _get_cache_file_path, path_join.
  destruct (negb (Py.truthy (cache_dir self)) || endswith_slash (cache_dir self)); intros H.
  - apply append_inj_l in H. apply append_inj_r in H. exact H.
  - apply append_inj_l in H. apply append_inj_l in H. apply append_inj_r in H. exact H.
Qed.

(** The [try] block does the same on any two directories. *)
Lemma try_get_uniform (self : cache) (now : Z) (cache_file : string) (f : file) :
  exists (x : failure + option json) (removes : bool),
    (forall fs0 : gmap string file,
        try_get fromisoformat self now fs0 cache_file f
        = (x, if removes then delete cache_file fs0 else fs0))
    /\ (removes = true -> x = inr None).
Proof.
  unfold try_get.
  destruct (openable f); cbn [negb]; [|exists (inl OSError), false; split; [reflexivity | discriminate]].
  destruct (contents f) as [| |cache_data];
    [eexists _, false; split; [reflexivity | discriminate]
    |eexists _, false; split; [reflexivity | discriminate]|].
  destruct (getitem cache_data "timestamp") as [err|ts];
    [eexists _, false; split; [reflexivity | discriminate]|].
  destruct ts as [|b|n|s|items|members];
    try (eexists _, false; split; [reflexivity | discriminate]).
  destruct (fromisoformat s) as [|t|t];
    try (eexists _, false; split; [reflexivity | discriminate]).
  destruct (now - t >? timedelta_seconds (max_age_seconds self));
    [exists (inr None), true; split; reflexivity|].
  destruct (getitem cache_data "response");
    (eexists _, false; split; [reflexivity | discriminate]).
Qed.

(** [get] reads the file of its key only, and either leaves the
    directory alone or removes that file and returns [None]. *)
Lemma get_cases (self : cache) (now : Z) (fs : gmap string file) (q c m : string) :
  let cache_file := _get_cache_file_path self (_generate_cache_key q c m) in
  exists r (removes : bool),
    (forall fs0 : gmap string file, fs0 !! cache_file = fs !! cache_file ->
                 get fromisoformat self now fs0 q c m
                 = (r, if removes then delete cache_file fs0 else fs0))
    /\ (removes = true -> r = Return None /\ is_Some (fs !! cache_file)).
Proof.
  intros cache_file. unfold get. fold cache_file.
  destruct (fs !! cache_file) as [f|] eqn:Hf.
  2:{ exists (Return None), false. split; [|discriminate].
      intros fs0 ->. reflexivity. }
  destruct (try_get_uniform self now cache_file f) as (x & removes & Htry & Hrem).
  destruct x as [err|r].
  - destruct (caught err) eqn:Hc.
    + exists (Return None), true. split; [|eauto].
      intros fs0 ->. rewrite Htry, Hc.
      destruct removes; [|reflexivity].
      specialize (Hrem eq_refl). discriminate Hrem.
    + exists (Raise (to_exc err)), false. split; [|discriminate].
      intros fs0 ->. rewrite Htry, Hc.
      destruct removes; [|reflexivity].
      specialize (Hrem eq_refl). discriminate Hrem.
  - exists (Return r), removes. split.
    + intros fs0 ->. rewrite Htry. reflexivity.
    + intros Hr. specialize (Hrem Hr). inversion Hrem. eauto.
Qed.

(** X13: [get] never creates or rewrites a file and never touches the
    file of another key: the directory after it is the one before, or
    the one before less the file of its own key, and only a call that
    returns [None] removes that file. *)
Theorem get_touches_own_file (self : cache) (now : Z) (fs : gmap string file)
        (q c m : string) :
  let cache_file := _get_cache_file_path self (_generate_cache_key q c m) in
  let fs' := snd (get fromisoformat self now fs q c m) in
  (fs' = fs
   \/ (fs' = delete cache_file fs
       /\ fst (get fromisoformat self now fs q c m) = Return None))
  /\ (forall p, p <> cache_file -> fs' !! p = fs !! p)
  /\ (forall p, is_Some (fs' !! p) -> is_Some (fs !! p)).
Proof.
  intros cache_file fs'. subst fs'.
  destruct (get_cases self now fs q c m) as (r & removes & Hget & Hrem).
  fold cache_file in Hget, Hrem. rewrite (Hget fs eq_refl). cbn [fst snd].
  destruct removes.
  - destruct (Hrem eq_refl) as [-> _]. split; [right; split; reflexivity|].
    split.
    + intros p Hp. apply lookup_delete_ne. congruence.
    + intros p. destruct (decide (p = cache_file)) as [->|Hp].
      * rewrite lookup_delete_eq. intros [x Hx]. discriminate Hx.
      * rewrite lookup_delete_ne by congruence. auto.
  - split; [left; reflexivity|]. split; auto.
Qed.


End CacheFrame.

Section CacheWrites.

Import Errors OllamaCache.

Variable isoformat : Z -> string.
Variable fromisoformat : string -> parsed_datetime.

Lemma set_lookup_ne (self : cache) (now : Z) (fs : gmap string file)
      (q r c m p : string) :
  p <> _get_cache_file_path self (_generate_cache_key q c m) ->
  set isoformat self now fs q r c m !! p = fs !! p.
Proof.
  intros Hp. unfold set.
  destruct (fs !! _get_cache_file_path self (_generate_cache_key q c m)) as [f|].
  - destruct (openable f); [|reflexivity]. apply lookup_insert_ne. congruence.
  - apply lookup_insert_ne. congruence.
Qed.

Lemma set_delete_comm (self : cache) (now : Z) (fs : gmap string file)
      (q r c m p : string) :
  p <> _get_cache_file_path self (_generate_cache_key q c m) ->
  delete p (set isoformat self now fs q r c m)
  = set isoformat self now (delete p fs) q r c m.
Proof.
  intros Hp. unfold set. rewrite lookup_delete_ne by congruence.
  destruct (fs !! _get_cache_file_path self (_generate_cache_key q c m)) as [f|].
  - destruct (openable f); [|reflexivity]. apply delete_insert_ne. congruence.
  - apply delete_insert_ne. congruence.
Qed.

(** [get] on a fresh record of the form [set] writes, whatever the
    question, context and model recorded in it. *)
Lemma get_written (self : cache) (now t : Z) (fs : gmap string file)
      (q c m q0 r c0 m0 k0 : string) :
  fs !! _get_cache_file_path self (_generate_cache_key q c m)
  = Some (mkFile (Json (JObject [("question", JString q0);
                                 ("response", JString r);
                                 ("context", JString c0);
                                 ("model", JString m0);
                                 ("timestamp", JString (isoformat t));
                                 ("cache_key", JString k0)])) true) ->
  fromisoformat (isoformat t) = Naive t ->
  now - t <= timedelta_seconds (max_age_seconds self) ->
  get fromisoformat self now fs q c m = (Return (Some (JString r)), fs).
Proof.
  intros Hf Hiso Hage.
  erewrite (get_entry fromisoformat self now fs q c m);
    [ | exact Hf | reflexivity | reflexivity | reflexivity | exact Hiso ].
  assert (Hfresh : (now - t >? timedelta_seconds (max_age_seconds self)) = false).
  { pose proof (Zgt_cases (now - t) (timedelta_seconds (max_age_seconds self))) as Hc.
    destruct (now - t >? timedelta_seconds (max_age_seconds self)); [lia | reflexivity]. }
  rewrite Hfresh. reflexivity.
Qed.



(** X17: entries under different keys do not interfere.  Storing
    under one key and looking up another commute: the lookup returns
    what it would have returned without the store, and the directory
    is the same in either order. *)
Theorem set_get_independent (self : cache) (now now' : Z) (fs : gmap string file)
        (q r c m q' c' m' : string) :
  _generate_cache_key q c m <> _generate_cache_key q' c' m' ->
  get fromisoformat self now' (set isoformat self now fs q r c m) q' c' m'
  = (fst (get fromisoformat self now' fs q' c' m'),
     set isoformat self now (snd (get fromisoformat self now' fs q' c' m')) q r c m).
Proof.
  intros Hkeys.
  assert (Hp : _get_cache_file_path self (_generate_cache_key q' c' m')
               <> _get_cache_file_path self (_generate_cache_key q c m)).
  { intros H. apply Hkeys. symmetry. apply (cache_file_inj self), H. }
  destruct (get_cases fromisoformat self now' fs q' c' m') as (r0 & removes & Hget & _).
  rewrite (Hget fs eq_refl). cbn [fst snd].
  rewrite (Hget (set isoformat self now fs q r c m)) by (apply set_lookup_ne, Hp).
  destruct removes; [|reflexivity].
  rewrite set_delete_comm by exact Hp. reflexivity.
Qed.



End CacheWrites.

Section CacheFrameWitnesses.

Import Errors OllamaCache.

Lemma get_touches_own_file_witness :
  snd (get sample_fromisoformat short_cache 1000000
           (set sample_isoformat short_cache 0 ∅ "q" "r" "ctx" "llama3")
           "q" "ctx" "llama3") !! "cache/other.json"
  = set sample_isoformat short_cache 0 ∅ "q" "r" "ctx" "llama3" !! "cache/other.json".
Proof.
  apply (get_touches_own_file sample_fromisoformat short_cache 1000000
                              (set sample_isoformat short_cache 0 ∅ "q" "r" "ctx" "llama3")
                              "q" "ctx" "llama3").
  vm_compute. discriminate.
Defined.




Lemma set_get_independent_witness :
  get sample_fromisoformat default_cache 1000000
      (set sample_isoformat default_cache 0 ∅ "q" "r" EmptyString EmptyString)
      "q" "c" EmptyString
  = (fst (get sample_fromisoformat default_cache 1000000 ∅ "q" "c" EmptyString),
     set sample_isoformat default_cache 0
         (snd (get sample_fromisoformat default_cache 1000000 ∅ "q" "c" EmptyString))
         "q" "r" EmptyString EmptyString).
Proof.
  apply (set_get_independent sample_isoformat sample_fromisoformat default_cache
                             0 1000000 ∅ "q" "r" EmptyString EmptyString
                             "q" "c" EmptyString).
  vm_compute. discriminate.
Defined.



End CacheFrameWitnesses.

(** ** Clearing the cache directory *)

Section ClearFacts.

Import OllamaCache.

Lemma clear_loop_filter (threshold : Z) (now : Q) :
  forall (listing : list dir_entry) (acc : Z),
    clear_loop threshold now listing acc
    = (acc + Z.of_nat (length (List.filter (cleared threshold now) listing)),
       List.filter (fun e => negb (cleared threshold now e)) listing).
Proof.
  induction listing as [|e rest IH]; intros acc.
  - cbn. f_equal. lia.
  - cbn [clear_loop List.filter]. destruct (cleared threshold now e); cbn [negb].
    + rewrite IH. cbn [length]. f_equal. lia.
    + rewrite IH. reflexivity.
Qed.


Lemma filter_all_kept {A : Type} (f : A -> bool) (l : list A) :
  List.filter f (List.filter (fun x => negb (f x)) l) = []
  /\ List.filter (fun x => negb (f x)) (List.filter (fun x => negb (f x)) l)
     = List.filter (fun x => negb (f x)) l.
Proof.
  induction l as [|x l [IH1 IH2]]; [split; reflexivity|].
  cbn [List.filter]. destruct (f x) eqn:Hx; cbn [negb]; [split; assumption|].
  cbn [List.filter]. rewrite Hx. cbn [negb]. rewrite IH1, IH2. split; reflexivity.
Qed.


(** X21: clearing again at the same time finds nothing left to
    remove: it returns 0 and leaves the directory as the first call
    left it. *)
Theorem clear_twice (self : cache) (max_age_hours : option Z) (now : Q)
        (listing : list dir_entry) :
  clear self max_age_hours now (snd (clear self max_age_hours now listing))
  = (0, snd (clear self max_age_hours now listing)).
Proof.
  unfold clear. rewrite !clear_loop_filter. cbn [fst snd].
  destruct (filter_all_kept (cleared (clear_threshold self max_age_hours) now) listing)
    as [Hnone Hsame].
  rewrite Hnone, Hsame. reflexivity.
Qed.

(** X22: without an argument [clear] takes the configured maximum age
    cut down to whole hours.  For a cache configured in whole hours
    that is the very threshold [get] expires entries with; for any
    other it is lower, by less than an hour. *)
Theorem clear_default_threshold :
  (forall dir hours,
      clear_threshold (new_cache dir hours) None = max_age_seconds (new_cache dir hours))
  /\ (forall self,
         max_age_seconds self - 3600 < clear_threshold self None <= max_age_seconds self)
  /\ (forall self, clear_threshold self None = max_age_seconds self
                   <-> max_age_seconds self mod 3600 = 0).
Proof.
  split; [|split].
  - intros dir hours. unfold clear_threshold, new_cache. cbn [max_age_seconds].
    rewrite Z.div_mul by lia. reflexivity.
  - intros self. unfold clear_threshold.
    pose proof (Z.div_mod (max_age_seconds self) 3600).
    pose proof (Z.mod_pos_bound (max_age_seconds self) 3600). lia.
  - intros self. unfold clear_threshold.
    pose proof (Z.div_mod (max_age_seconds self) 3600).
    pose proof (Z.mod_pos_bound (max_age_seconds self) 3600). lia.
Qed.

Section ScanFacts.

Variable fromtimestamp : Q -> Z.



End ScanFacts.

End ClearFacts.

Section ClearWitnesses.

Import OllamaCache.


Lemma clear_default_threshold_witness :
  clear_threshold (mkCache "cache" 7200) None = max_age_seconds (mkCache "cache" 7200).
Proof.
  destruct clear_default_threshold as (_ & _ & Hiff). apply Hiff. reflexivity.
Defined.


End ClearWitnesses.

(** ** The users of the cache and of the retry *)

Section ClientFacts.

Import Errors OllamaCache Client.

Context {N : Type}.
Variable isoformat : Z -> string.
Variable fromisoformat : string -> parsed_datetime.
Variable clock : N -> Z.
Variable post : string -> string -> N -> http_reply * N.

Lemma set_value_string (self : cache) (now : Z) (fs : gmap string file)
      (q r c m : string) :
  set_value isoformat self now fs q (JString r) c m = set isoformat self now fs q r c m.
Proof. reflexivity. Qed.

(** An operation whose first outcome is not a retryable failure is
    called once. *)
Lemma retry_not_retryable {W V : Type} (operation : W -> result V * W)
      (K : Z) (delay : Q) (w : W) :
  1 <= K ->
  retryable_failure (fst (operation w)) = false ->
  retry_operation operation K delay w
  = (fst (operation w), snd (operation w), [Attempt]).
Proof.
  intros HK Hre. unfold retry_operation, Py.range.
  replace (Z.to_nat K) with (S (Z.to_nat (K - 1))) by lia.
  cbn [seq map retry_loop].
  destruct (operation w) as [[v|e] w']; cbn [fst snd retryable_failure] in *;
    [reflexivity|]. rewrite Hre. reflexivity.
Qed.

(** Every failure of [_query] is an exception from outside the
    family. *)
Lemma _query_not_retryable (q c m : string) (w : N * gmap string file) :
  retryable_failure (fst (_query isoformat clock post q c m w)) = false.
Proof.
  unfold _query. destruct (post m (prompt_of q c) (fst w)) as [[e|data|status body] n'].
  - reflexivity.
  - destruct data as [|b|k|s|items|members]; try reflexivity.
    cbn [get_response]. destruct (dict_get "response" members); reflexivity.
  - reflexivity.
Qed.

(** The lookup leaves the directory alone unless it returns [None]. *)
Lemma get_some_keeps (self : cache) (now : Z) (fs fs' : gmap string file)
      (q c m : string) (v : json) :
  get fromisoformat self now fs q c m = (Return (Some v), fs') -> fs' = fs.
Proof.
  destruct (get_cases fromisoformat self now fs q c m) as (r & removes & Hget & Hrem).
  rewrite (Hget fs eq_refl). intros H. inversion H; subst.
  destruct removes; [|reflexivity].
  destruct (Hrem eq_refl) as [Hr _]. discriminate Hr.
Qed.

(** X24: [query_ollama] never retries and never sleeps.  Whatever the
    question, the cache and the server, it sends at most one request;
    and when the lookup finds nothing it can use, the call is exactly
    one call of [_query], whose failure, always an exception from
    outside the family, is raised at once. *)
Theorem query_ollama_single_request (q c m : string) (w : N * gmap string file) :
  let run := query_ollama isoformat fromisoformat clock post q c m w in
  (snd run = [] \/ snd run = [Attempt])
  /\ waits (snd run) = []
  /\ (forall cached fs',
         get_cached_response fromisoformat (clock (fst w)) (snd w) q c m
         = (Return cached, fs') ->
         (cached = None \/ exists v, cached = Some v /\ json_truthy v = false) ->
         run = (fst (_query isoformat clock post q c m (fst w, fs')),
                snd (_query isoformat clock post q c m (fst w, fs')),
                [Attempt])).
Proof.
  cbv zeta. unfold query_ollama.
  destruct (get_cached_response fromisoformat (clock (fst w)) (snd w) q c m)
    as [[cached|e] fs1].
  2:{ cbn [snd]. split; [left; reflexivity|]. split; [reflexivity|]. discriminate. }
  pose proof (retry_not_retryable (_query isoformat clock post q c m) 3 1%Q (fst w, fs1)
                                  ltac:(lia) (_query_not_retryable q c m (fst w, fs1)))
    as Hrun.
  destruct cached as [v|].
  - destruct (json_truthy v) eqn:Hv.
    + cbn [snd]. split; [left; reflexivity|]. split; [reflexivity|].
      intros cached fs' H [Hc|(v' & Hc & Hv')]; inversion H; subst; congruence.
    + rewrite Hrun. cbn [snd]. split; [right; reflexivity|]. split; [reflexivity|].
      intros cached fs' H _. inversion H; subst. reflexivity.
  - rewrite Hrun. cbn [snd]. split; [right; reflexivity|]. split; [reflexivity|].
    intros cached fs' H _. inversion H; subst. reflexivity.
Qed.

(** X25: a usable cached response ends [query_ollama] at once.  It is
    returned as it is, no request is sent, the directory is not
    changed, and the answers of the validators play no part: this
    holds for every question and model, valid or not. *)
Theorem query_ollama_cache_hit (q c m : string) (w : N * gmap string file)
        (v : json) (fs' : gmap string file) :
  get_cached_response fromisoformat (clock (fst w)) (snd w) q c m
  = (Return (Some v), fs') ->
  json_truthy v = true ->
  query_ollama isoformat fromisoformat clock post q c m w
  = (Return v, (fst w, snd w), []).
Proof.
  intros Hget Hv. unfold query_ollama. rewrite Hget, Hv.
  unfold get_cached_response in Hget. apply get_some_keeps in Hget. subst fs'.
  reflexivity.
Qed.

(** X26: when the lookup finds nothing and the server answers 200
    with an object, [query_ollama] returns its [response] member, or
    the text [No response] when there is none, after one request, and
    records it under the question, context and model asked, at the
    time the answer came; any other status raises a plain [Exception]
    that carries the status and the body, and records nothing. *)
Theorem query_ollama_miss (q c m : string) (w : N * gmap string file)
        (fs' : gmap string file) :
  get_cached_response fromisoformat (clock (fst w)) (snd w) q c m = (Return None, fs') ->
  (forall members n',
      post m (prompt_of q c) (fst w) = (Status200 (JObject members), n') ->
      let text := default (JString "No response") (dict_get "response" members) in
      query_ollama isoformat fromisoformat clock post q c m w
      = (Return text,
         (n', set_value isoformat default_cache (clock n') fs' q text c m),
         [Attempt]))
  /\ (forall status body n',
         post m (prompt_of q c) (fst w) = (StatusOther status body, n') ->
         query_ollama isoformat fromisoformat clock post q c m w
         = (Raise (builtin "Exception"
                           ("Error: HTTP " ++ Py.str_int status ++ " - " ++ body)),
            (n', fs'), [Attempt]))
  /\ (forall e n',
         post m (prompt_of q c) (fst w) = (Failed e, n') ->
         query_ollama isoformat fromisoformat clock post q c m w
         = (Raise (Raw e), (n', fs'), [Attempt])).
Proof.
  intros Hget. unfold query_ollama. rewrite Hget.
  rewrite (retry_not_retryable (_query isoformat clock post q c m) 3 1%Q (fst w, fs')
                               ltac:(lia) (_query_not_retryable q c m (fst w, fs'))).
  unfold _query. cbn [fst snd].
  split; [|split].
  - intros members n' Hpost. rewrite Hpost. cbn [get_response].
    destruct (dict_get "response" members); reflexivity.
  - intros status body n' Hpost. rewrite Hpost. reflexivity.
  - intros e n' Hpost. rewrite Hpost. reflexivity.
Qed.

(** X27: what [query_ollama] stored is served on the next call only
    if it is not empty.  With a fresh record of a response text [s]
    in the cache, the call returns [s] without a request when [s] is
    not the empty string, and sends a request when it is. *)
Theorem query_ollama_after_store (q c m s : string) (t : Z) (n : N)
        (fs : gmap string file) :
  let fs1 := set_value isoformat default_cache t fs q (JString s) c m in
  fromisoformat (isoformat t) = Naive t ->
  (forall f, fs !! _get_cache_file_path default_cache (_generate_cache_key q c m) = Some f ->
             openable f = true) ->
  clock n - t <= timedelta_seconds (max_age_seconds default_cache) ->
  (s <> EmptyString ->
   query_ollama isoformat fromisoformat clock post q c m (n, fs1)
   = (Return (JString s), (n, fs1), []))
  /\ (s = EmptyString ->
      snd (query_ollama isoformat fromisoformat clock post q c m (n, fs1)) = [Attempt]).
Proof.
  intros fs1 Hiso Hopen Hage.
  assert (Hget : get_cached_response fromisoformat (clock n) fs1 q c m
                 = (Return (Some (JString s)), fs1)).
  { unfold get_cached_response, fs1. rewrite set_value_string.
    apply (get_written isoformat fromisoformat default_cache (clock n) t _ q c m
                       q s c m (_generate_cache_key q c m)); [|exact Hiso|exact Hage].
    apply (set_lookup isoformat default_cache t fs q s c m Hopen). }
  split.
  - intros Hs. unfold query_ollama. cbn [fst snd]. rewrite Hget.
    destruct s; [congruence | reflexivity].
  - intros ->. unfold query_ollama. cbn [fst snd]. rewrite Hget. cbn [json_truthy Py.truthy].
    rewrite (retry_not_retryable (_query isoformat clock post q c m) 3 1%Q (n, fs1)
                                 ltac:(lia) (_query_not_retryable q c m (n, fs1))).
    reflexivity.
Qed.

(** X28: [main] stores its answer with two arguments exchanged.  What
    it writes is found again by looking up the question with the
    response in the place of the context, and what is found is the
    context; the lookup [main] itself makes, question with context, is
    under another key and is not served by that write. *)
Theorem main_store_swapped (now now' : Z) (fs : gmap string file)
        (question context response : string) :
  let fs' := main_store isoformat now fs question context response in
  fromisoformat (isoformat now) = Naive now ->
  (forall f,
      fs !! _get_cache_file_path default_cache
              (_generate_cache_key question response EmptyString) = Some f ->
      openable f = true) ->
  now' - now <= timedelta_seconds (max_age_seconds default_cache) ->
  main_lookup fromisoformat now' fs' question response
  = (Return (Some (JString context)), fs')
  /\ (_generate_cache_key question context EmptyString
      <> _generate_cache_key question response EmptyString ->
      main_lookup fromisoformat now' fs' question context
      = (fst (main_lookup fromisoformat now' fs question context),
         main_store isoformat now (snd (main_lookup fromisoformat now' fs question context))
                    question context response)).
Proof.
  intros fs' Hiso Hopen Hage. subst fs'.
  unfold main_lookup, main_store, get_cached_response, cache_response. split.
  - apply (get_written isoformat fromisoformat default_cache now' now _
                       question response EmptyString
                       question context response EmptyString
                       (_generate_cache_key question response EmptyString));
      [|exact Hiso|exact Hage].
    apply (set_lookup isoformat default_cache now fs question context response EmptyString
                      Hopen).
  - intros Hkeys.
    assert (Hp : _get_cache_file_path default_cache
                   (_generate_cache_key question context EmptyString)
                 <> _get_cache_file_path default_cache
                      (_generate_cache_key question response EmptyString)).
    { intros H. apply Hkeys. apply (cache_file_inj default_cache), H. }
    destruct (get_cases fromisoformat default_cache now' fs question context EmptyString)
      as (r0 & removes & Hget & _).
    rewrite (Hget fs eq_refl). cbn [fst snd].
    rewrite (Hget (set isoformat default_cache now fs question context response EmptyString))
      by (apply set_lookup_ne, Hp).
    destruct removes; [|reflexivity].
    rewrite set_delete_comm by exact Hp. reflexivity.
Qed.

End ClientFacts.

Section ClientWitnesses.

Import Errors OllamaCache Client.

Lemma query_ollama_single_request_witness :
  query_ollama sample_isoformat sample_fromisoformat (fun time => time) broken_server
               "q" "ctx" "llama3" (0, ∅)
  = (fst (_query sample_isoformat (fun time => time) broken_server
                 "q" "ctx" "llama3" (0, ∅)),
     snd (_query sample_isoformat (fun time => time) broken_server
                 "q" "ctx" "llama3" (0, ∅)),
     [Attempt]).
Proof.
  apply (query_ollama_single_request sample_isoformat sample_fromisoformat
                                     (fun time => time) broken_server
                                     "q" "ctx" "llama3" (0, ∅)) with (cached := None).
  - unfold get_cached_response, get. cbn [fst snd]. rewrite lookup_empty. reflexivity.
  - left. reflexivity.
Defined.

Lemma query_ollama_cache_hit_witness :
  let fs1 := set sample_isoformat default_cache 0 ∅ "q" "hola" "ctx" "llama3" in
  query_ollama sample_isoformat sample_fromisoformat (fun time => time) broken_server
               "q" "ctx" "llama3" (1000000, fs1)
  = (Return (JString "hola"), (1000000, fs1), []).
Proof.
  intros fs1.
  apply (query_ollama_cache_hit sample_isoformat sample_fromisoformat
                                (fun time => time) broken_server
                                "q" "ctx" "llama3" (1000000, fs1) (JString "hola") fs1).
  - unfold get_cached_response. cbn [fst snd].
    apply (get_written sample_isoformat sample_fromisoformat default_cache 1000000 0 fs1
                       "q" "ctx" "llama3" "q" "hola" "ctx" "llama3"
                       (_generate_cache_key "q" "ctx" "llama3")).
    + apply (set_lookup sample_isoformat default_cache 0 ∅ "q" "hola" "ctx" "llama3").
      intros f Hf. rewrite lookup_empty in Hf. discriminate Hf.
    + reflexivity.
    + vm_compute. discriminate.
  - reflexivity.
Defined.

Lemma query_ollama_miss_witness :
  query_ollama sample_isoformat sample_fromisoformat (fun time => time) answering_server
               "q" "ctx" "llama3" (0, ∅)
  = (Return (JString "hola"),
     (1000000,
      set_value sample_isoformat default_cache 1000000 ∅ "q" (JString "hola")
                "ctx" "llama3"),
     [Attempt]).
Proof.
  destruct (query_ollama_miss sample_isoformat sample_fromisoformat
                              (fun time => time) answering_server
                              "q" "ctx" "llama3" (0, ∅) ∅) as (Hok & _).
  - unfold get_cached_response, get. cbn [fst snd]. rewrite lookup_empty. reflexivity.
  - apply (Hok [("response", JString "hola")] 1000000). reflexivity.
Defined.

Lemma query_ollama_after_store_witness :
  let fs1 := set_value sample_isoformat default_cache 0 ∅ "q" (JString "hola")
                       "ctx" "llama3" in
  query_ollama sample_isoformat sample_fromisoformat (fun time => time) broken_server
               "q" "ctx" "llama3" (1000000, fs1)
  = (Return (JString "hola"), (1000000, fs1), []).
Proof.
  intros fs1.
  apply (query_ollama_after_store sample_isoformat sample_fromisoformat
                                  (fun time => time) broken_server
                                  "q" "ctx" "llama3" "hola" 0 1000000 ∅).
  - reflexivity.
  - intros f Hf. rewrite lookup_empty in Hf. discriminate Hf.
  - vm_compute. discriminate.
  - discriminate.
Defined.

Lemma main_store_swapped_witness :
  let fs' := main_store sample_isoformat 0 ∅ "q" "ctx" "resp" in
  main_lookup sample_fromisoformat 1000000 fs' "q" "resp"
  = (Return (Some (JString "ctx")), fs')
  /\ main_lookup sample_fromisoformat 1000000 fs' "q" "ctx"
     = (fst (main_lookup sample_fromisoformat 1000000 ∅ "q" "ctx"),
        main_store sample_isoformat 0
                   (snd (main_lookup sample_fromisoformat 1000000 ∅ "q" "ctx"))
                   "q" "ctx" "resp").
Proof.
  intros fs'.
  destruct (main_store_swapped sample_isoformat sample_fromisoformat 0 1000000 ∅
                               "q" "ctx" "resp") as [Hfound Hown].
  - reflexivity.
  - intros f Hf. rewrite lookup_empty in Hf. discriminate Hf.
  - vm_compute. discriminate.
  - split; [exact Hfound|]. apply Hown. vm_compute. discriminate.
Defined.

End ClientWitnesses.
